(** * GenerateQuestionsFromPDFsv3: a shallow embedding and its properties

    The script reads the PDF files of a folder, cuts each document's text
    into overlapping character windows, re-tokenizes every window, asks a
    question-generation model for question/answer pairs and writes them to
    a JSON file.

    Modelling decisions:
    - a Python [str] is a [string], its characters being the 256 of
      [ascii]; [len] is [String.length] and indices are Python integers,
      that is [Z];
    - a Python value whose shape the code inspects at run time
      ([isinstance], [len], iteration, unpacking) is a [pyval];
    - exceptions are values of [exn]; a computation ends in an [outcome]:
      it returns, raises, or its [while] loop has used up the fuel it was
      given;
    - the file system is a finite map from file names to contents and the
      console is the list of messages printed so far;
    - the PDF library, the directory listing, the tokenizer and the
      generation model are collaborators of the script: they are records
      of functions, passed where the source passes the object. The start
      of the script (the CUDA check and the construction of the model)
      is not modelled. *)

From Stdlib Require Import ZArith Ascii String List Lia Bool.
From stdpp Require Import gmap strings.

Import ListNotations.
Open Scope string_scope.
Open Scope list_scope.
Open Scope Z_scope.

(** ** Python strings *)

Module PyStr.

(** [len(s)] as a Python integer. *)
Definition len (s : string) : Z := Z.of_nat (String.length s).

(** How Python turns one bound of a slice [s[a:b]] into a position
    between [0] and [len(s)]: a negative bound counts from the end, and
    everything is clamped to the string. *)
Definition clamp (n i : Z) : Z :=
  if i <? 0 then Z.max (i + n) 0 else Z.min i n.

(** [s[a:b]] *)
Definition slice (s : string) (a b : Z) : string :=
  let lo := clamp (len s) a in
  let hi := clamp (len s) b in
  String.substring (Z.to_nat lo) (Z.to_nat (hi - lo)) s.

(** [s.endswith(suffix)] *)
Definition endswith (s suffix : string) : bool :=
  let n := String.length s in
  let k := String.length suffix in
  (k <=? n)%nat && String.eqb (String.substring (n - k) k s) suffix.

(** The line feed, and the separator string the extractor appends. *)
Definition newline : ascii := "010"%char.
Definition two_newlines : string := String newline (String newline EmptyString).

(** [iter(s)]: the one-character strings of [s], in order. *)
Fixpoint chars (s : string) : list string :=
  match s with
  | EmptyString => []
  | String c s' => String c EmptyString :: chars s'
  end.

End PyStr.

(** ** The chunker *)

(** The variables of the [while] loop of [preliminary_split_text]. *)
Record split_state := {
  chunks : list string;
  current_start : Z
}.

Section Chunker.

Variable text : string.
Variables max_length overlap : Z.

Definition text_length : Z := PyStr.len text.

(** The loop test, [current_start < text_length]. *)
Definition split_continues (st : split_state) : bool :=
  current_start st <? text_length.

(** One run of the loop body. *)
Definition split_body (st : split_state) : split_state :=
  let end_index := Z.min (current_start st + max_length) text_length in
  {| chunks := chunks st ++ [PyStr.slice text (current_start st) end_index];
     current_start := current_start st + (max_length - overlap) |}.

(** The loop itself; [fuel] bounds the number of runs of the body, and
    [None] means that the loop was still running when it ran out. *)
Fixpoint split_loop (fuel : nat) (st : split_state) : option (list string) :=
  if split_continues st then
    match fuel with
    | O => None
    | S fuel' => split_loop fuel' (split_body st)
    end
  else Some (chunks st).

Definition preliminary_split_text (fuel : nat) : option (list string) :=
  split_loop fuel {| chunks := []; current_start := 0 |}.

End Chunker.

Definition default_max_length : Z := 512.
Definition default_overlap : Z := 128.

(** ** Exceptions and outcomes *)

(** The exception classes that reach the script. *)
Inductive exn :=
| AnswerNotFoundError (msg : string)  (* lmqg.exceptions.AnswerNotFoundError *)
| ValueError (msg : string)
| TypeError                           (* raised by the interpreter; message not modelled *)
| OtherError (class_name msg : string).

(** [except AnswerNotFoundError] *)
Definition is_AnswerNotFoundError (e : exn) : bool :=
  match e with
  | AnswerNotFoundError _ => true
  | _ => false
  end.

(** How a computation ends. [OutOfFuel] is no Python result: it says that
    a [while] loop was still running when the fuel it was given ran out. *)
Inductive outcome (A : Type) :=
| Returns (a : A)
| Raises (e : exn)
| OutOfFuel.

Arguments Returns {A} a.
Arguments Raises {A} e.
Arguments OutOfFuel {A}.

(** ** The tokenizer and the second stage of the chunker *)

(** [model.tokenizer]: the two methods the script calls. *)
Record Tokenizer := {
  token : Type;
  tokenize : string -> list token;
  convert_tokens_to_string : list token -> string
}.

Definition token_count (tokenizer : Tokenizer) (s : string) : Z :=
  Z.of_nat (length (tokenize tokenizer s)).

(** What one text window becomes: tokenized and put together again. *)
Definition reconstitute (tokenizer : Tokenizer) (s : string) : string :=
  convert_tokens_to_string tokenizer (tokenize tokenizer s).

Definition token_overflow : exn :=
  ValueError "Token count exceeds the maximum allowed length.".

(** The [for pre_chunk in preliminary_chunks] loop. *)
Fixpoint tokenize_chunks (tokenizer : Tokenizer) (max_length : Z)
    (preliminary_chunks final_chunks : list string) : outcome (list string) :=
  match preliminary_chunks with
  | [] => Returns final_chunks
  | pre_chunk :: rest =>
      let tokens := tokenize tokenizer pre_chunk in
      let token_count := Z.of_nat (length tokens) in
      if token_count >? max_length then Raises token_overflow
      else
        let chunk_str := convert_tokens_to_string tokenizer tokens in
        tokenize_chunks tokenizer max_length rest (final_chunks ++ [chunk_str])
  end.

Definition split_text_into_smaller_chunks (fuel : nat) (text : string)
    (tokenizer : Tokenizer) (max_length overlap : Z) : outcome (list string) :=
  match preliminary_split_text text max_length overlap fuel with
  | None => OutOfFuel
  | Some preliminary_chunks =>
      tokenize_chunks tokenizer max_length preliminary_chunks []
  end.

(** ** Python values of unknown shape *)

(** What the generation model hands back is inspected by the writer at
    run time, so it is kept as a dynamically typed value. *)
#[warnings="-register-all"]
Inductive pyval :=
| PNone
| PInt (z : Z)
| PStr (s : string)
| PTuple (items : list pyval)
| PList (items : list pyval).

(** [for x in v]: the items the loop visits, or [TypeError] when [v] is
    not iterable. *)
Definition py_iter (v : pyval) : outcome (list pyval) :=
  match v with
  | PStr s => Returns (map PStr (PyStr.chars s))
  | PTuple items => Returns items
  | PList items => Returns items
  | PNone => Raises TypeError
  | PInt _ => Raises TypeError
  end.

(** [prefix + v] for a string literal [prefix]. *)
Definition str_add (prefix : string) (v : pyval) : outcome string :=
  match v with
  | PStr s => Returns (String.append prefix s)
  | _ => Raises TypeError
  end.

(** ** os.path, as the script uses it

    The script is written for Windows (it calls [ctypes.windll] and its
    folder is on drive [C:]), so [os.path] is [ntpath]: both slashes
    separate components and a leading drive letter is set apart. UNC and
    device prefixes are not modelled. *)

Module ntpath.

Definition is_sep (c : ascii) : bool :=
  Ascii.eqb c "/"%char || Ascii.eqb c "\"%char.

Definition is_dot (c : ascii) : bool := Ascii.eqb c "."%char.

Definition splitdrive (p : string) : string * string :=
  match p with
  | String d (String c rest) =>
      if Ascii.eqb c ":"%char then (String d (String c EmptyString), rest)
      else (EmptyString, p)
  | _ => (EmptyString, p)
  end.

(** The current last component while scanning [p] from the left. *)
Fixpoint last_component (p tail : string) : string :=
  match p with
  | EmptyString => tail
  | String c p' =>
      if is_sep c then last_component p' EmptyString
      else last_component p' (String.append tail (String c EmptyString))
  end.

Definition basename (p : string) : string :=
  last_component (snd (splitdrive p)) EmptyString.

(** [p.rfind] for a class of characters: the last index, or [-1]. *)
Fixpoint rfind_from (f : ascii -> bool) (p : string) (i found : Z) : Z :=
  match p with
  | EmptyString => found
  | String c p' => rfind_from f p' (i + 1) (if f c then i else found)
  end.

Definition rfind (f : ascii -> bool) (p : string) : Z := rfind_from f p 0 (-1).

Fixpoint has_non_dot (s : string) : bool :=
  match s with
  | EmptyString => false
  | String c s' => negb (is_dot c) || has_non_dot s'
  end.

(** [splitext(p)]: the extension starts at the last dot, provided that
    dot comes after the last separator and after a character of the file
    name that is not a dot. *)
Definition splitext (p : string) : string * string :=
  let sepIndex := rfind is_sep p in
  let dotIndex := rfind is_dot p in
  if (dotIndex >? sepIndex) && has_non_dot (PyStr.slice p (sepIndex + 1) dotIndex)
  then (PyStr.slice p 0 dotIndex, PyStr.slice p dotIndex (PyStr.len p))
  else (p, EmptyString).

Definition ends_with_sep (p : string) : bool :=
  match String.get (String.length p - 1) p with
  | Some c => is_sep c
  | None => false
  end.

(** [join(path, p)] for a [p] without drive and without leading
    separator, which is what a directory listing yields. *)
Definition join (path p : string) : string :=
  let '(result_drive, result_path) := splitdrive path in
  let result_path :=
    if negb (String.eqb result_path EmptyString) && negb (ends_with_sep result_path)
    then String.append result_path "\" else result_path in
  String.append result_drive (String.append result_path p).

End ntpath.

(** ** The world the script acts on *)

(** The persisted unit: one object of the output array. *)
Record QARecord := {
  Reference : string;
  Question : string;
  Answer : string
}.

(** What the script prints, with the values it formats into the line. *)
Inductive message :=
| SkippingPart (e : exn)          (* Skipping a part due to AnswerNotFoundError: {e} *)
| InvalidQAFormat (qa : pyval)    (* Invalid QA format: {qa} *)
| DatasetSaved (filename output_file : string)
                                  (* Q&A dataset for {filename} saved to {output_file} *)
| SleepCancelled                  (* Sleep cancelled by the user. *)
| PuttingToSleep.                 (* No response or OK selected. Putting the computer to sleep. *)

Inductive event :=
| Print (m : message)
| Sleep (seconds : Z)             (* time.sleep *)
| System (command : string).      (* os.system *)

Record world := {
  files : gmap string string;     (* file name to file content *)
  trace : list event              (* oldest first *)
}.

(** A computation that acts on the world. The world that comes back with
    [Raises] is the world at the moment of the raise. *)
Definition M (A : Type) : Type := world -> outcome A * world.

Definition ret {A} (a : A) : M A := fun w => (Returns a, w).

Definition raise {A} (e : exn) : M A := fun w => (Raises e, w).

Definition lift {A} (o : outcome A) : M A := fun w => (o, w).

Definition bind {A B} (c : M A) (k : A -> M B) : M B :=
  fun w =>
    match c w with
    | (Returns a, w') => k a w'
    | (Raises e, w') => (Raises e, w')
    | (OutOfFuel, w') => (OutOfFuel, w')
    end.

Notation "x <- c ;; k" := (bind c (fun x => k))
  (at level 100, c at next level, right associativity).
Notation "c ;;; k" := (bind c (fun _ => k))
  (at level 100, right associativity).

Definition emit (ev : event) : M unit :=
  fun w => (Returns tt, {| files := files w; trace := trace w ++ [ev] |}).

Definition print (m : message) : M unit := emit (Print m).

(** [with open(name, "w") as f: f.write(content)]: the file is created or
    truncated, then holds [content] and nothing else. *)
Definition write_file (name content : string) : M unit :=
  fun w => (Returns tt, {| files := <[name := content]> (files w); trace := trace w |}).

(** ** json.dump(records, f, indent=4) *)

Module json.

Definition quote : ascii := "034"%char.
Definition newline : ascii := PyStr.newline.

Definition hex_digit (n : N) : ascii :=
  match String.get (N.to_nat n) "0123456789abcdef" with
  | Some c => c
  | None => "0"%char
  end.

(** The escape of one character of a string ([ensure_ascii] is on):
    printable ASCII stands for itself, but for the quote and the
    backslash; the rest is written as an escape. *)
Definition escape_char (c : ascii) : string :=
  let n := N_of_ascii c in
  if Ascii.eqb c quote then String "\"%char (String quote EmptyString)
  else if Ascii.eqb c "\"%char then "\\"
  else if (n =? 10)%N then "\n"
  else if (n =? 13)%N then "\r"
  else if (n =? 9)%N then "\t"
  else if (n =? 8)%N then "\b"
  else if (n =? 12)%N then "\f"
  else if (32 <=? n)%N && (n <=? 126)%N then String c EmptyString
  else String.append "\u00"
         (String (hex_digit (n / 16)) (String (hex_digit (n mod 16)) EmptyString)).

Fixpoint escape (s : string) : string :=
  match s with
  | EmptyString => EmptyString
  | String c s' => String.append (escape_char c) (escape s')
  end.

Definition dumps_str (s : string) : string :=
  String quote (String.append (escape s) (String quote EmptyString)).

Definition member (key value : string) : string :=
  String.append "        "
    (String.append (dumps_str key) (String.append ": " (dumps_str value))).

Definition comma_newline : string := String "," (String newline EmptyString).

Definition dumps_record (r : QARecord) : string :=
  String.append "    {" (String newline
    (String.append (member "Reference" (Reference r)) (String.append comma_newline
    (String.append (member "Question" (Question r)) (String.append comma_newline
    (String.append (member "Answer" (Answer r)) (String newline "    }"))))))).

Fixpoint dumps_items (rs : list QARecord) : string :=
  match rs with
  | [] => EmptyString
  | [r] => dumps_record r
  | r :: rs' => String.append (dumps_record r) (String.append comma_newline (dumps_items rs'))
  end.

Definition dumps (rs : list QARecord) : string :=
  match rs with
  | [] => "[]"
  | _ => String "[" (String newline (String.append (dumps_items rs) (String newline "]")))
  end.

End json.

(** ** The dataset writer *)

(** The body of [for qa in qa_list], over the items the loop visits. *)
Fixpoint save_pairs (pdf_file_name : string) (qa_items : list pyval)
    (modified_qas : list QARecord) : M (list QARecord) :=
  match qa_items with
  | [] => ret modified_qas
  | qa :: rest =>
      match qa with
      | PTuple [question; answer] =>
          q <- lift (str_add "Question: " question) ;;
          a <- lift (str_add "Answer: " answer) ;;
          let modified_qa :=
            {| Reference := pdf_file_name; Question := q; Answer := a |} in
          save_pairs pdf_file_name rest (modified_qas ++ [modified_qa])
      | _ =>
          print (InvalidQAFormat qa) ;;;
          save_pairs pdf_file_name rest modified_qas
      end
  end.

(** The body of [for qa_list in qas]. *)
Fixpoint save_lists (pdf_file_name : string) (qas : list pyval)
    (modified_qas : list QARecord) : M (list QARecord) :=
  match qas with
  | [] => ret modified_qas
  | qa_list :: rest =>
      qa_items <- lift (py_iter qa_list) ;;
      modified_qas' <- save_pairs pdf_file_name qa_items modified_qas ;;
      save_lists pdf_file_name rest modified_qas'
  end.

Definition save_qas_to_json (qas : list pyval) (output_file pdf_file_path : string)
    : M unit :=
  let pdf_file_name := fst (ntpath.splitext (ntpath.basename pdf_file_path)) in
  modified_qas <- save_lists pdf_file_name qas [] ;;
  write_file output_file (json.dumps modified_qas).

(** ** The collaborators *)

(** The global [model]: its tokenizer, and [generate_qa] on a list of
    texts. *)
Record QGModel := {
  tokenizer : Tokenizer;
  generate_qa : list string -> outcome (list pyval)
}.

(** The host: the directory listing, the PDF library (a document is the
    list of the texts of its pages) and the button pressed in the dialog
    at the end of the run. *)
Record Host := {
  listdir : string -> outcome (list string);
  fitz_open : string -> outcome (list string);
  message_box : Z
}.

Definition MAX_FILES_TO_PROCESS : Z := 0.

(** [text = ""; for page in doc: text += page.get_text()] *)
Definition document_text (doc : list string) : string :=
  fold_left (fun text page_text => String.append text page_text) doc EmptyString.

Section Script.

Variable model : QGModel.
Variable host : Host.

(** ** The QA generator *)

(** [for part in ...]: one call of the model per part, inside the [try]. *)
Fixpoint generate_parts (parts : list string) (qas : list pyval) : M (list pyval) :=
  match parts with
  | [] => ret qas
  | part :: rest =>
      match generate_qa model [part] with
      | Returns qa_part => generate_parts rest (qas ++ qa_part)
      | Raises e =>
          if is_AnswerNotFoundError e
          then print (SkippingPart e) ;;; generate_parts rest qas
          else raise e
      | OutOfFuel => lift OutOfFuel
      end
  end.

(** [for text in texts] *)
Fixpoint generate_texts (fuel : nat) (texts : list string) (tokenizer : Tokenizer)
    (qas : list pyval) : M (list pyval) :=
  match texts with
  | [] => ret qas
  | text :: rest =>
      parts <- lift (split_text_into_smaller_chunks fuel text tokenizer
                       default_max_length default_overlap) ;;
      qas' <- generate_parts parts qas ;;
      generate_texts fuel rest tokenizer qas'
  end.

Definition generate_qas (fuel : nat) (texts : list string) (tokenizer : Tokenizer)
    (pdf_file_path : string) : M unit :=
  qas <- generate_texts fuel texts tokenizer [] ;;
  save_qas_to_json qas "qa_dataset.json" pdf_file_path.

(** ** The PDF text extractor *)

(** [for filename in os.listdir(folder_path)], with its [break]. *)
Fixpoint extract_loop (folder_path : string) (max_files : Z) (listing : list string)
    (texts : list string) (file_count : Z) : outcome (list string) :=
  match listing with
  | [] => Returns texts
  | filename :: rest =>
      if PyStr.endswith filename ".pdf" then
        if negb (max_files =? 0) && (file_count >=? max_files) then Returns texts
        else
          let pdf_path := ntpath.join folder_path filename in
          match fitz_open host pdf_path with
          | Returns doc =>
              let text := document_text doc in
              extract_loop folder_path max_files rest
                ((texts ++ [text]) ++ [PyStr.two_newlines])
                (file_count + 1)
          | Raises e => Raises e
          | OutOfFuel => OutOfFuel
          end
      else extract_loop folder_path max_files rest texts file_count
  end.

Definition extract_text_from_pdfs (folder_path : string) (max_files : Z)
    : outcome (list string) :=
  match listdir host folder_path with
  | Returns listing => extract_loop folder_path max_files listing [] 0
  | Raises e => Raises e
  | OutOfFuel => OutOfFuel
  end.

(** ** The run driver *)

Fixpoint main_loop (fuel : nat) (folder_path output_file : string) (max_files : Z)
    (listing : list string) (texts : list string) : M unit :=
  match listing with
  | [] => ret tt
  | filename :: rest =>
      if PyStr.endswith filename ".pdf" then
        if negb (max_files =? 0) && (Z.of_nat (length texts) >=? max_files) then ret tt
        else
          let pdf_path := ntpath.join folder_path filename in
          doc <- lift (fitz_open host pdf_path) ;;
          let text := document_text doc in
          generate_qas fuel [text] (tokenizer model) pdf_path ;;;
          print (DatasetSaved filename output_file) ;;;
          main_loop fuel folder_path output_file max_files rest (texts ++ [text])
      else main_loop fuel folder_path output_file max_files rest texts
  end.

(** The end of the run: the dialog, then the wait and the suspend
    request unless the user pressed Cancel (button 2). *)
Definition on_completion : M unit :=
  if message_box host =? 2 then print SleepCancelled
  else
    print PuttingToSleep ;;;
    emit (Sleep 20) ;;;
    emit (System "rundll32.exe powrprof.dll,SetSuspendState 0,1,0").

Definition main (fuel : nat) (folder_path output_file : string) (max_files : Z)
    : M unit :=
  listing <- lift (listdir host folder_path) ;;
  main_loop fuel folder_path output_file max_files listing [] ;;;
  on_completion.

End Script.

(** The last lines of the script: its two constants and the call. *)
Definition script_folder_path : string := "C:/Users/mclau/Downloads/DFARs-Processed".
Definition script_output_file : string := "qa_dataset.json".

Definition script (model : QGModel) (host : Host) (fuel : nat) : M unit :=
  main model host fuel script_folder_path script_output_file MAX_FILES_TO_PROCESS.

(** ** Notions the statements below use *)

(** The window the loop cuts in its run number [k] (counting from 0). *)
Definition nth_window (text : string) (max_length overlap : Z) (k : nat) : string :=
  let start := Z.of_nat k * (max_length - overlap) in
  PyStr.slice text start (Z.min (start + max_length) (PyStr.len text)).

(** The number of runs of the loop when the step is positive: the least
    [n] with [n * step >= len(text)]. *)
Definition window_count (text : string) (max_length overlap : Z) : nat :=
  let step := max_length - overlap in
  Z.to_nat ((PyStr.len text + step - 1) / step).

(** Every character of [text] lies in one of the windows, where window
    number [k] starts at offset [k * step] of the text. *)
Definition covers (text : string) (step : nat) (windows : list string) : Prop :=
  forall (i : nat) (c : ascii),
    String.get i text = Some c ->
    exists (k : nat) (window : string),
      windows !! k = Some window /\ (k * step <= i)%nat /\
      String.get (i - k * step) window = Some c.

(** The file names a run works on: the PDF entries of the listing, in
    listing order, and no more than [max_files] of them unless
    [max_files] is [0]. *)
Definition selected_pdfs (max_files : Z) (listing : list string) : list string :=
  let pdfs := List.filter (fun filename => PyStr.endswith filename ".pdf") listing in
  if max_files =? 0 then pdfs else firstn (Z.to_nat max_files) pdfs.

(** The same, for a run that has already worked on [done] files. *)
Definition remaining_pdfs (max_files : Z) (done : nat) (listing : list string)
    : list string :=
  let pdfs := List.filter (fun filename => PyStr.endswith filename ".pdf") listing in
  if max_files =? 0 then pdfs
  else firstn (Z.to_nat (max_files - Z.of_nat done)) pdfs.

(** A model call the generator lives with: a result, or the designated
    no-answer condition. *)
Definition tolerated (o : outcome (list pyval)) : Prop :=
  match o with
  | Returns _ => True
  | Raises e => is_AnswerNotFoundError e = true
  | OutOfFuel => False
  end.

(** What one part adds to the collected pairs, and to the console. *)
Definition part_pairs (model : QGModel) (part : string) : list pyval :=
  match generate_qa model [part] with
  | Returns qa_part => qa_part
  | _ => []
  end.

Definition part_log (model : QGModel) (part : string) : list event :=
  match generate_qa model [part] with
  | Raises e => if is_AnswerNotFoundError e then [Print (SkippingPart e)] else []
  | _ => []
  end.

(** The record a well-shaped item becomes; any other item gives none. *)
Definition item_records (pdf_file_name : string) (qa : pyval) : list QARecord :=
  match qa with
  | PTuple [PStr question; PStr answer] =>
      [{| Reference := pdf_file_name;
          Question := String.append "Question: " question;
          Answer := String.append "Answer: " answer |}]
  | _ => []
  end.

(** A two-element tuple is a pair of strings. *)
Definition pairs_are_strings (items : list pyval) : Prop :=
  forall q a, In (PTuple [q; a]) items -> exists s t, q = PStr s /\ a = PStr t.

(** The document name the writer tags records with. *)
Definition document_name (pdf_file_path : string) : string :=
  fst (ntpath.splitext (ntpath.basename pdf_file_path)).

(** The diagnostic of the writer for an item it skips. *)
Definition item_log (qa : pyval) : list event :=
  match qa with
  | PTuple [_; _] => []
  | _ => [Print (InvalidQAFormat qa)]
  end.

(** The world after some more events, and after a file was written. *)
Definition logged (evs : list event) (w : world) : world :=
  {| files := files w; trace := trace w ++ evs |}.

Definition stored (name content : string) (w : world) : world :=
  {| files := <[name := content]> (files w); trace := trace w |}.

(** A computation that only prints: the same outcome and the same lines
    in every world, and no file touched. *)
Definition logs_only {A} (c : M A) : Prop :=
  exists (o : outcome A) (evs : list event), forall w, c w = (o, logged evs w).

(** A computation that has no [while] loop to wait for. *)
Definition fuel_free {A} (c : M A) : Prop :=
  forall w, fst (c w) <> OutOfFuel.

(** ** Sample collaborators, for the examples *)

(** One token per character. *)
Definition char_tokenizer : Tokenizer := {|
  token := ascii;
  tokenize := list_ascii_of_string;
  convert_tokens_to_string := string_of_list_ascii
|}.

(** Two tokens per character: its high and its low half byte. *)
Fixpoint to_nibbles (s : string) : list N :=
  match s with
  | EmptyString => []
  | String c s' => (N_of_ascii c / 16)%N :: (N_of_ascii c mod 16)%N :: to_nibbles s'
  end.

Fixpoint of_nibbles (l : list N) : string :=
  match l with
  | hi :: lo :: l' => String (ascii_of_N (16 * hi + lo)) (of_nibbles l')
  | _ => EmptyString
  end.

Definition nibble_tokenizer : Tokenizer := {|
  token := N;
  tokenize := to_nibbles;
  convert_tokens_to_string := of_nibbles
|}.

Definition no_answer : exn := AnswerNotFoundError "no answer found in text".
Definition out_of_memory : exn := OtherError "RuntimeError" "CUDA out of memory".

(** A model that finds no answer in a part starting with [?], breaks on
    a part starting with [!], and otherwise asks what the part says. *)
Definition sample_generate_qa (texts : list string) : outcome (list pyval) :=
  match texts with
  | [String "?"%char _] => Raises no_answer
  | [String "!"%char _] => Raises out_of_memory
  | _ => Returns (map (fun t => PList [PTuple [PStr "What does it say?"; PStr t]]) texts)
  end.

Definition sample_model : QGModel := {|
  tokenizer := char_tokenizer;
  generate_qa := sample_generate_qa
|}.

(** A folder with two PDF files and a text file between them. *)
Definition sample_host : Host := {|
  listdir := fun _ => Returns ["a.pdf"; "notes.txt"; "b.pdf"];
  fitz_open := fun path =>
    if String.eqb path "docs\a.pdf" then Returns ["Alpha "; "one."]
    else if String.eqb path "docs\b.pdf" then Returns ["Beta."]
    else Raises (OtherError "FileNotFoundError" path);
  message_box := 2
|}.

Definition empty_world : world := {| files := ∅; trace := [] |}.

Fixpoint replicate_char (n : nat) (c : ascii) : string :=
  match n with
  | O => EmptyString
  | S n' => String c (replicate_char n' c)
  end.

(** A text of 400 characters: shorter than the default window, longer
    than the default step. *)
Definition text_of_400 : string := replicate_char 400 "a".

(** ** Further notions, for the properties beyond the claims *)

(** [isinstance(v, str)] *)
Definition is_str (v : pyval) : bool :=
  match v with
  | PStr _ => true
  | _ => false
  end.


(** A tokenizer that never makes more tokens than the text has
    characters. *)
Definition at_most_one_token_per_character (tokenizer : Tokenizer) : Prop :=
  forall s : string, token_count tokenizer s <= PyStr.len s.

(** Kinds of events. *)
Definition is_print (ev : event) : Prop :=
  match ev with
  | Print _ => True
  | _ => False
  end.

Definition is_diagnostic (ev : event) : Prop :=
  match ev with
  | Print (SkippingPart _) => True
  | Print (InvalidQAFormat _) => True
  | _ => False
  end.

(** A computation that only adds events of one kind to the trace. *)
Definition appends (P : event -> Prop) {A} (c : M A) : Prop :=
  forall w, exists evs : list event,
    trace (snd (c w)) = trace w ++ evs /\ Forall P evs.

(** The documents a stretch of the console reports as saved, each with
    the file it names. *)
Definition saved_documents (evs : list event) : list (string * string) :=
  flat_map (fun ev =>
              match ev with
              | Print (DatasetSaved filename output_file) => [(filename, output_file)]
              | _ => []
              end) evs.

(** No entry of the listing is a PDF file. *)
Definition no_pdf (listing : list string) : Prop :=
  Forall (fun filename => PyStr.endswith filename ".pdf" = false) listing.

(** A host like the sample one, but its second PDF file cannot be
    parsed, and its user presses OK in the dialog. *)
Definition broken_document : exn :=
  OtherError "FileDataError" "cannot open broken document".

Definition broken_host : Host := {|
  listdir := listdir sample_host;
  fitz_open := fun path =>
    if String.eqb path "docs\b.pdf" then Raises broken_document
    else fitz_open sample_host path;
  message_box := 1
|}.

(** * Properties *)

(** ** Strings *)

Section StringFacts.

Lemma substring_length (s : string) : forall n m : nat,
  String.length (String.substring n m s) = Nat.min m (String.length s - n).
Proof.
  induction s as [|c s IH]; intros n m.
  - destruct n, m; reflexivity.
  - destruct n as [|n]; destruct m as [|m]; simpl; try reflexivity.
    + rewrite IH. f_equal. f_equal. lia.
    + apply IH.
    + apply IH.
Qed.

Lemma substring_all (s : string) : String.substring 0 (String.length s) s = s.
Proof. induction s as [|c s IH]; simpl; [reflexivity | now rewrite IH]. Qed.

Lemma substring_clip (s : string) : forall n m : nat,
  String.substring n (Nat.min m (String.length s - n)) s = String.substring n m s.
Proof.
  induction s as [|c s IH]; intros n m.
  - destruct n, m; reflexivity.
  - destruct n as [|n]; destruct m as [|m]; simpl; try reflexivity.
    + f_equal. rewrite <- (IH 0%nat m). f_equal. f_equal. lia.
    + apply (IH n (S m)).
Qed.

Lemma substring_past_end (s : string) : forall n m : nat,
  (String.length s <= n)%nat -> String.substring n m s = EmptyString.
Proof.
  induction s as [|c s IH]; intros n m Hn.
  - destruct n, m; reflexivity.
  - destruct n as [|n]; simpl in *; [lia|]. apply IH. lia.
Qed.

Lemma get_Some_lt (s : string) : forall (i : nat) (c : ascii),
  String.get i s = Some c -> (i < String.length s)%nat.
Proof.
  induction s as [|a s IH]; intros i c H; simpl in *.
  - discriminate.
  - destruct i as [|i]; [lia|]. apply IH in H. lia.
Qed.

End StringFacts.

(** A slice with bounds inside the string is the substring the loop of
    the chunker means. *)
Lemma slice_window (text : string) (start max_length : Z) :
  0 <= start -> 0 <= max_length ->
  PyStr.slice text start (Z.min (start + max_length) (PyStr.len text))
  = String.substring (Z.to_nat start) (Z.to_nat max_length) text.
Proof.
  intros Hs Hm. unfold PyStr.slice, PyStr.clamp, PyStr.len.
  set (n := String.length text).
  assert (Hlo : (start <? 0) = false) by (apply Z.ltb_ge; lia).
  assert (Hhi : (Z.min (start + max_length) (Z.of_nat n) <? 0) = false)
    by (apply Z.ltb_ge; lia).
  rewrite Hlo, Hhi.
  destruct (Z_le_gt_dec start (Z.of_nat n)) as [Hle|Hgt].
  - rewrite (Z.min_l start) by lia.
    rewrite <- (substring_clip text (Z.to_nat start) (Z.to_nat max_length)).
    f_equal. fold n. lia.
  - rewrite (Z.min_r start) by lia.
    rewrite (substring_past_end text (Z.to_nat start)) by (fold n; lia).
    replace (Z.to_nat _) with (String.length text) by (fold n; lia).
    now rewrite substring_past_end.
Qed.

(** ** The window loop *)

Section ChunkerFacts.

Variable text : string.
Variables max_length overlap : Z.

Lemma len_nonneg : 0 <= PyStr.len text.
Proof. unfold PyStr.len. lia. Qed.

(** With a positive step, [n] runs starting from window number [k] end
    the loop as soon as window number [k + n] would start at or past the
    end of the text. *)
Lemma split_loop_windows :
  0 < max_length - overlap ->
  forall (n k : nat) (acc : list string) (fuel : nat),
    PyStr.len text <= (Z.of_nat k + Z.of_nat n) * (max_length - overlap) ->
    (n = 0%nat \/ (Z.of_nat k + Z.of_nat n - 1) * (max_length - overlap) < PyStr.len text) ->
    (n <= fuel)%nat ->
    split_loop text max_length overlap fuel
      {| chunks := acc; current_start := Z.of_nat k * (max_length - overlap) |}
    = Some (acc ++ (nth_window text max_length overlap <$> seq k n)).
Proof.
  intros Hstep n. induction n as [|n IH]; intros k acc fuel Hend Hlast Hfuel.
  - assert (Hstop : split_continues text
              {| chunks := acc; current_start := Z.of_nat k * (max_length - overlap) |}
            = false).
    { unfold split_continues, text_length; simpl. apply Z.ltb_ge. lia. }
    destruct fuel; simpl; rewrite Hstop; simpl; now rewrite app_nil_r.
  - destruct fuel as [|fuel]; [lia|].
    assert (Hgo : split_continues text
              {| chunks := acc; current_start := Z.of_nat k * (max_length - overlap) |}
            = true).
    { unfold split_continues, text_length; simpl. apply Z.ltb_lt.
      destruct Hlast as [Hlast|Hlast]; [discriminate|]. nia. }
    simpl split_loop. rewrite Hgo.
    unfold split_body; simpl chunks; simpl current_start.
    replace (Z.of_nat k * (max_length - overlap) + (max_length - overlap))
      with (Z.of_nat (S k) * (max_length - overlap)) by lia.
    rewrite (IH (S k)).
    + rewrite <- app_assoc. reflexivity.
    + lia.
    + destruct n; [now left | right; lia].
    + lia.
Qed.

Lemma window_count_reaches :
  0 < max_length - overlap ->
  PyStr.len text <= Z.of_nat (window_count text max_length overlap) * (max_length - overlap).
Proof.
  intros Hstep. unfold window_count. pose proof len_nonneg as Hlen.
  set (step := max_length - overlap) in *. set (len := PyStr.len text) in *.
  assert (Hq : 0 <= (len + step - 1) / step) by (apply Z.div_pos; lia).
  rewrite Z2Nat.id by exact Hq.
  pose proof (Z.mul_succ_div_gt (len + step - 1) step Hstep). nia.
Qed.

Lemma window_count_least :
  0 < max_length - overlap ->
  window_count text max_length overlap = 0%nat \/
  (Z.of_nat (window_count text max_length overlap) - 1) * (max_length - overlap)
    < PyStr.len text.
Proof.
  intros Hstep. unfold window_count. pose proof len_nonneg as Hlen.
  set (step := max_length - overlap) in *. set (len := PyStr.len text) in *.
  assert (Hq : 0 <= (len + step - 1) / step) by (apply Z.div_pos; lia).
  right. rewrite Z2Nat.id by exact Hq.
  pose proof (Z.mul_div_le (len + step - 1) step Hstep). nia.
Qed.

(** The loop, in closed form, when the step is positive. *)
Lemma preliminary_split_text_windows (fuel : nat) :
  overlap < max_length ->
  (window_count text max_length overlap <= fuel)%nat ->
  preliminary_split_text text max_length overlap fuel
  = Some (nth_window text max_length overlap
            <$> seq 0 (window_count text max_length overlap)).
Proof.
  intros Hstep Hfuel. unfold preliminary_split_text.
  pose proof (split_loop_windows ltac:(lia)
                (window_count text max_length overlap) 0 [] fuel) as H.
  simpl in H. apply H.
  - apply window_count_reaches. lia.
  - apply window_count_least. lia.
  - exact Hfuel.
Qed.

(** With a step that is not positive, a window start that is not
    positive stays so, and the loop runs on over a non-empty text. *)
Lemma split_loop_stuck :
  max_length - overlap <= 0 -> 0 < PyStr.len text ->
  forall (fuel : nat) (st : split_state),
    current_start st <= 0 ->
    split_loop text max_length overlap fuel st = None.
Proof.
  intros Hstep Hlen fuel. induction fuel as [|fuel IH]; intros st Hst.
  - simpl. unfold split_continues, text_length.
    now replace (current_start st <? PyStr.len text) with true
      by (symmetry; apply Z.ltb_lt; lia).
  - simpl. unfold split_continues, text_length.
    replace (current_start st <? PyStr.len text) with true
      by (symmetry; apply Z.ltb_lt; lia).
    apply IH. simpl. lia.
Qed.

End ChunkerFacts.

(** ** The chunker: claims *)

(** C9. For the empty text, chunking yields no chunk at all: the
    character windows are the empty list, whatever the parameters and
    without a single run of the loop, and so is the list of
    re-tokenized chunks, whatever the tokenizer. *)
Theorem empty_text_yields_no_chunk :
  forall (fuel : nat) (tokenizer : Tokenizer) (max_length overlap : Z),
    preliminary_split_text EmptyString max_length overlap fuel = Some [] /\
    split_text_into_smaller_chunks fuel EmptyString tokenizer max_length overlap
    = Returns [].
Proof.
  intros fuel tokenizer max_length overlap.
  unfold split_text_into_smaller_chunks.
  assert (H : preliminary_split_text EmptyString max_length overlap fuel = Some [])
    by (destruct fuel; reflexivity).
  rewrite H. split; reflexivity.
Qed.

(** C10. [preliminary_split_text] terminates on every text when
    [overlap < max_length]: each run of the body moves the window start
    by the positive step [max_length - overlap], and from some amount of
    fuel on the loop returns the same list. The condition is needed:
    when [overlap >= max_length], the loop never ends on a non-empty
    text, whatever fuel it is given. *)
Theorem preliminary_split_text_terminates_iff_positive_step :
  forall (text : string) (max_length overlap : Z),
    (forall st : split_state,
        current_start (split_body text max_length overlap st)
        = current_start st + (max_length - overlap)) /\
    (overlap < max_length ->
     exists (n : nat) (windows : list string),
       forall fuel : nat, (n <= fuel)%nat ->
         preliminary_split_text text max_length overlap fuel = Some windows) /\
    (overlap >= max_length -> text <> EmptyString ->
     forall fuel : nat,
       preliminary_split_text text max_length overlap fuel = None).
Proof.
  intros text max_length overlap. split; [|split].
  - intros st. reflexivity.
  - intros Hstep.
    exists (window_count text max_length overlap).
    exists (nth_window text max_length overlap
              <$> seq 0 (window_count text max_length overlap)).
    intros fuel Hfuel. now apply preliminary_split_text_windows.
  - intros Hstep Htext fuel. unfold preliminary_split_text.
    apply split_loop_stuck; simpl; try lia.
    destruct text; [contradiction|]. unfold PyStr.len. simpl. lia.
Qed.

Lemma preliminary_split_text_terminates_witness :
  (exists (n : nat) (windows : list string),
     forall fuel : nat, (n <= fuel)%nat ->
       preliminary_split_text "abcde" 4 1 fuel = Some windows) /\
  (forall fuel : nat, preliminary_split_text "abcde" 4 4 fuel = None).
Proof.
  split.
  - destruct (preliminary_split_text_terminates_iff_positive_step "abcde" 4 1)
      as (_ & H & _).
    apply H. reflexivity.
  - destruct (preliminary_split_text_terminates_iff_positive_step "abcde" 4 4)
      as (_ & _ & H).
    apply H; [discriminate | discriminate].
Defined.

Lemma tokenize_chunks_closed_form (tokenizer : Tokenizer) (max_length : Z) :
  forall (preliminary_chunks final_chunks : list string),
    tokenize_chunks tokenizer max_length preliminary_chunks final_chunks
    = if existsb (fun c => token_count tokenizer c >? max_length) preliminary_chunks
      then Raises token_overflow
      else Returns (final_chunks ++ (reconstitute tokenizer <$> preliminary_chunks)).
Proof.
  induction preliminary_chunks as [|c rest IH]; intros final_chunks; simpl.
  - now rewrite app_nil_r.
  - unfold token_count at 1.
    destruct (Z.of_nat (length (tokenize tokenizer c)) >? max_length); simpl.
    + reflexivity.
    + rewrite IH. destruct (existsb _ rest); [reflexivity|].
      now rewrite <- app_assoc.
Qed.

Lemma nth_window_whole (text : string) (max_length overlap : Z) :
  PyStr.len text <= max_length ->
  nth_window text max_length overlap 0 = text.
Proof.
  intros Hlen. unfold nth_window.
  replace (Z.of_nat 0 * (max_length - overlap)) with 0 by lia.
  replace (Z.min (0 + max_length) (PyStr.len text))
    with (Z.min (0 + PyStr.len text) (PyStr.len text)) by lia.
  rewrite slice_window by (unfold PyStr.len; lia).
  unfold PyStr.len. rewrite Nat2Z.id. apply substring_all.
Qed.

(** C3, as it stands, fails: a text of 400 characters is shorter than the
    default window of 512, and yet it is cut into two chunks, because
    the second window starts at 384, before the end of the text. *)
Lemma text_of_400_yields_two_chunks :
  PyStr.len text_of_400 < default_max_length /\
  preliminary_split_text text_of_400 default_max_length default_overlap 2
  = Some [text_of_400; replicate_char 16 "a"] /\
  split_text_into_smaller_chunks 2 text_of_400 char_tokenizer
    default_max_length default_overlap
  = Returns [text_of_400; replicate_char 16 "a"].
Proof. vm_compute. repeat split; reflexivity. Qed.

(** C3, amended. A non-empty text that is no longer than the step
    [max_length - overlap] and no longer than [max_length] is cut into
    exactly one window, the text itself; chunking then yields exactly
    one chunk, the text tokenized and put together again, unless the
    text has more than [max_length] tokens, in which case the overflow
    error is raised. *)
Theorem short_text_yields_one_chunk :
  forall (text : string) (tokenizer : Tokenizer) (max_length overlap : Z) (fuel : nat),
    text <> EmptyString ->
    PyStr.len text <= max_length - overlap ->
    PyStr.len text <= max_length ->
    (1 <= fuel)%nat ->
    preliminary_split_text text max_length overlap fuel = Some [text] /\
    split_text_into_smaller_chunks fuel text tokenizer max_length overlap
    = if token_count tokenizer text >? max_length
      then Raises token_overflow
      else Returns [reconstitute tokenizer text].
Proof.
  intros text tokenizer max_length overlap fuel Htext Hstep Hlen Hfuel.
  assert (Hpos : 0 < PyStr.len text).
  { destruct text; [contradiction|]. unfold PyStr.len. simpl. lia. }
  assert (Hpre : preliminary_split_text text max_length overlap fuel = Some [text]).
  { unfold preliminary_split_text.
    pose proof (split_loop_windows text max_length overlap ltac:(lia)
                  1 0 [] fuel) as H.
    change (Z.of_nat 0 * (max_length - overlap)) with 0 in H.
    rewrite H; try lia.
    cbn [seq fmap list_fmap app]. now rewrite nth_window_whole. }
  split; [exact Hpre|].
  unfold split_text_into_smaller_chunks. rewrite Hpre.
  rewrite tokenize_chunks_closed_form. simpl.
  now destruct (token_count tokenizer text >? max_length).
Qed.

Lemma short_text_yields_one_chunk_witness :
  preliminary_split_text "Sleep is good." default_max_length default_overlap 1
  = Some ["Sleep is good."] /\
  split_text_into_smaller_chunks 1 "Sleep is good." char_tokenizer
    default_max_length default_overlap
  = Returns ["Sleep is good."].
Proof.
  apply (short_text_yields_one_chunk "Sleep is good." char_tokenizer
           default_max_length default_overlap 1).
  - discriminate.
  - vm_compute. discriminate.
  - vm_compute. discriminate.
  - apply le_n.
Defined.

(** Under [0 <= overlap < max_length], window number [k] holds the
    [max_length] characters from offset [k * step] on, or those that are
    left of them. *)
Lemma nth_window_substring (text : string) (max_length overlap : Z) (k : nat) :
  0 <= overlap -> overlap < max_length ->
  nth_window text max_length overlap k
  = String.substring (k * Z.to_nat (max_length - overlap)) (Z.to_nat max_length) text.
Proof.
  intros Hov Hstep. unfold nth_window.
  rewrite slice_window by nia.
  f_equal. rewrite Z2Nat.inj_mul by lia. now rewrite Nat2Z.id.
Qed.

(** C8, as it stands, fails: nothing keeps the overlap from being
    negative, and then the step is longer than the window. With
    [max_length = 2] and [overlap = -1] the text [abc] gives the single
    window [ab], and its last character is in no window. *)
Lemma negative_overlap_leaves_a_gap :
  -1 < 2 /\
  preliminary_split_text "abc" 2 (-1) 5 = Some ["ab"] /\
  ~ covers "abc" (Z.to_nat (2 - -1)) ["ab"].
Proof.
  split; [reflexivity|]. split; [reflexivity|].
  intros H. destruct (H 2%nat "c"%char eq_refl) as (k & window & Hk & _ & Hget).
  destruct k as [|k]; simpl in Hk.
  - injection Hk as <-. discriminate Hget.
  - discriminate Hk.
Qed.

(** C8, amended. For every text and every [0 <= overlap < max_length],
    [preliminary_split_text] returns the windows that start at offsets
    [0], [step], [2 * step], ... with [step = max_length - overlap]:
    window number [k] is the [max_length] characters from [k * step] on
    (fewer at the end of the text); the last window starts before the
    end of the text and the next start would be at or past it; no window
    is longer than [max_length]; and every character of the text lies in
    some window. *)
Theorem windows_cover_the_text :
  forall (text : string) (max_length overlap : Z),
    0 <= overlap -> overlap < max_length ->
    exists (n : nat) (windows : list string),
      (forall fuel : nat, (n <= fuel)%nat ->
         preliminary_split_text text max_length overlap fuel = Some windows) /\
      windows = (fun k : nat =>
                   String.substring (k * Z.to_nat (max_length - overlap))
                     (Z.to_nat max_length) text) <$> seq 0 n /\
      PyStr.len text <= Z.of_nat n * (max_length - overlap) /\
      (n = 0%nat \/ (Z.of_nat n - 1) * (max_length - overlap) < PyStr.len text) /\
      Forall (fun window => PyStr.len window <= max_length) windows /\
      covers text (Z.to_nat (max_length - overlap)) windows.
Proof.
  intros text max_length overlap Hov Hstep.
  set (n := window_count text max_length overlap).
  set (step := Z.to_nat (max_length - overlap)).
  assert (Hreach : PyStr.len text <= Z.of_nat n * (max_length - overlap))
    by (apply window_count_reaches; lia).
  assert (Hwin : nth_window text max_length overlap <$> seq 0 n
                 = (fun k : nat => String.substring (k * step) (Z.to_nat max_length) text)
                     <$> seq 0 n).
  { apply list_fmap_ext. intros i k _. now apply nth_window_substring. }
  exists n. eexists. split; [|split; [reflexivity|]].
  - intros fuel Hfuel. rewrite <- Hwin.
    now apply preliminary_split_text_windows.
  - split; [exact Hreach|]. split; [apply window_count_least; lia|]. split.
    + apply Forall_fmap, Forall_forall. intros k _. simpl.
      unfold PyStr.len. rewrite substring_length. lia.
    + intros i c Hget. pose proof (get_Some_lt _ _ _ Hget) as Hi.
      assert (Hs : (0 < step)%nat) by (unfold step; lia).
      pose proof (Nat.div_mod i step ltac:(lia)) as Hdiv.
      pose proof (Nat.mod_upper_bound i step ltac:(lia)) as Hmod.
      exists (i / step)%nat. eexists. split; [|split].
      * rewrite list_lookup_fmap, lookup_seq_lt; [reflexivity|].
        unfold PyStr.len in Hreach.
        assert (Hst : Z.of_nat step = max_length - overlap) by (unfold step; lia).
        rewrite <- Hst in Hreach. nia.
      * nia.
      * rewrite substring_correct1 by (unfold step in *; lia).
        rewrite <- Hget. f_equal. lia.
Qed.

Lemma windows_cover_the_text_witness :
  exists (n : nat) (windows : list string),
    (forall fuel : nat, (n <= fuel)%nat ->
       preliminary_split_text "abcdefghij" 4 1 fuel = Some windows) /\
    windows = (fun k : nat => String.substring (k * Z.to_nat (4 - 1)) (Z.to_nat 4)
                                "abcdefghij") <$> seq 0 n /\
    PyStr.len "abcdefghij" <= Z.of_nat n * (4 - 1) /\
    (n = 0%nat \/ (Z.of_nat n - 1) * (4 - 1) < PyStr.len "abcdefghij") /\
    Forall (fun window => PyStr.len window <= 4) windows /\
    covers "abcdefghij" (Z.to_nat (4 - 1)) windows.
Proof.
  apply (windows_cover_the_text "abcdefghij" 4 1).
  - discriminate.
  - reflexivity.
Defined.

Lemma existsb_overflow_Exists (tokenizer : Tokenizer) (max_length : Z)
    (preliminary_chunks : list string) :
  existsb (fun c => token_count tokenizer c >? max_length) preliminary_chunks = true
  <-> Exists (fun c => max_length < token_count tokenizer c) preliminary_chunks.
Proof.
  rewrite existsb_exists, List.Exists_exists.
  split; intros (c & Hin & Hc); exists c; (split; [exact Hin|]);
    now apply Z.gtb_lt.
Qed.

(** C7. [split_text_into_smaller_chunks] raises exactly when one of the
    character windows has more than [max_length] tokens, and the error
    is the overflow [ValueError]. It fails at the first such window:
    whatever follows that window plays no role, and no chunk comes back.
    When no window has more than [max_length] tokens, it returns one
    string per window, in order: the window tokenized, at most
    [max_length] tokens, and put together again. For
    [overlap < max_length] one of the two happens. *)
Theorem split_text_raises_iff_token_overflow :
  forall (fuel : nat) (text : string) (tokenizer : Tokenizer) (max_length overlap : Z),
    (forall e : exn,
        split_text_into_smaller_chunks fuel text tokenizer max_length overlap = Raises e
        <-> e = token_overflow /\
            exists preliminary_chunks,
              preliminary_split_text text max_length overlap fuel
              = Some preliminary_chunks /\
              Exists (fun c => max_length < token_count tokenizer c) preliminary_chunks) /\
    (forall good bad rest,
        preliminary_split_text text max_length overlap fuel = Some (good ++ bad :: rest) ->
        Forall (fun c => token_count tokenizer c <= max_length) good ->
        max_length < token_count tokenizer bad ->
        forall rest' final_chunks,
          tokenize_chunks tokenizer max_length (good ++ bad :: rest') final_chunks
          = Raises token_overflow) /\
    (forall preliminary_chunks,
        preliminary_split_text text max_length overlap fuel = Some preliminary_chunks ->
        Forall (fun c => token_count tokenizer c <= max_length) preliminary_chunks ->
        exists final_chunks,
          split_text_into_smaller_chunks fuel text tokenizer max_length overlap
          = Returns final_chunks /\
          Forall2 (fun c chunk_str =>
                     chunk_str = reconstitute tokenizer c /\
                     token_count tokenizer c <= max_length)
            preliminary_chunks final_chunks) /\
    (overlap < max_length ->
     (window_count text max_length overlap <= fuel)%nat ->
     split_text_into_smaller_chunks fuel text tokenizer max_length overlap <> OutOfFuel).
Proof.
  intros fuel text tokenizer max_length overlap.
  unfold split_text_into_smaller_chunks.
  split; [|split; [|split]].
  - intros e.
    destruct (preliminary_split_text text max_length overlap fuel) as [pre|].
    + rewrite tokenize_chunks_closed_form.
      destruct (existsb _ pre) eqn:Hex.
      * apply existsb_overflow_Exists in Hex. split.
        -- intros [= <-]. split; [reflexivity|]. now exists pre.
        -- now intros [-> _].
      * split; [discriminate|].
        intros (_ & pre' & [= <-] & Hbad).
        apply existsb_overflow_Exists in Hbad. congruence.
    + split; [discriminate|]. intros (_ & pre & Hpre & _). discriminate.
  - intros good bad rest _ Hgood Hbad rest' final_chunks.
    rewrite tokenize_chunks_closed_form.
    replace (existsb _ (good ++ bad :: rest')) with true; [reflexivity|].
    symmetry. apply existsb_overflow_Exists.
    apply Exists_app. right. now apply Exists_cons_hd.
  - intros pre Hpre Hok. rewrite Hpre, tokenize_chunks_closed_form.
    destruct (existsb _ pre) eqn:Hex.
    + apply existsb_overflow_Exists, List.Exists_exists in Hex.
      destruct Hex as (c & Hin & Hc).
      rewrite List.Forall_forall in Hok. apply Hok in Hin. lia.
    + eexists. split; [reflexivity|]. simpl.
      clear Hpre Hex. induction Hok as [|c pre Hc Hok IH]; simpl.
      * constructor.
      * constructor; [now split | exact IH].
  - intros Hstep Hfuel.
    rewrite preliminary_split_text_windows by assumption.
    rewrite tokenize_chunks_closed_form. now destruct (existsb _ _).
Qed.

Lemma split_text_raises_iff_token_overflow_witness :
  split_text_into_smaller_chunks 3 "abcdefg" nibble_tokenizer 4 1 = Raises token_overflow /\
  (exists final_chunks,
     split_text_into_smaller_chunks 3 "abcdefg" char_tokenizer 4 1 = Returns final_chunks /\
     Forall2 (fun c chunk_str =>
                chunk_str = reconstitute char_tokenizer c /\
                token_count char_tokenizer c <= 4)
       ["abcd"; "defg"; "g"] final_chunks) /\
  split_text_into_smaller_chunks 3 "abcdefg" char_tokenizer 4 1 <> OutOfFuel.
Proof.
  split; [|split].
  - apply (split_text_raises_iff_token_overflow 3 "abcdefg" nibble_tokenizer 4 1).
    split; [reflexivity|]. exists ["abcd"; "defg"; "g"]. split; [reflexivity|].
    apply Exists_cons_hd. reflexivity.
  - apply (split_text_raises_iff_token_overflow 3 "abcdefg" char_tokenizer 4 1).
    + reflexivity.
    + repeat constructor; discriminate.
  - apply (split_text_raises_iff_token_overflow 3 "abcdefg" char_tokenizer 4 1).
    + reflexivity.
    + vm_compute. repeat constructor.
Defined.

(** ** Computations on the world *)

Section WorldFacts.

Lemma logged_nil (w : world) : logged [] w = w.
Proof. destruct w. unfold logged. simpl. now rewrite app_nil_r. Qed.

Lemma logged_logged (evs1 evs2 : list event) (w : world) :
  logged evs2 (logged evs1 w) = logged (evs1 ++ evs2) w.
Proof. unfold logged. simpl. now rewrite app_assoc. Qed.

Lemma stored_logged (name content : string) (evs : list event) (w : world) :
  stored name content (logged evs w) = logged evs (stored name content w).
Proof. reflexivity. Qed.

Lemma stored_stored (name c1 c2 : string) (w : world) :
  stored name c2 (stored name c1 w) = stored name c2 w.
Proof. unfold stored. simpl. now rewrite insert_insert_eq. Qed.

Lemma logs_only_ret {A} (a : A) : logs_only (ret a).
Proof. exists (Returns a), []. intros w. unfold ret. now rewrite logged_nil. Qed.

Lemma logs_only_lift {A} (o : outcome A) : logs_only (lift o).
Proof. exists o, []. intros w. unfold lift. now rewrite logged_nil. Qed.

Lemma logs_only_raise {A} (e : exn) : logs_only (@raise A e).
Proof. exists (Raises e), []. intros w. unfold raise. now rewrite logged_nil. Qed.

Lemma logs_only_print (m : message) : logs_only (print m).
Proof. exists (Returns tt), [Print m]. intros w. reflexivity. Qed.

Lemma logs_only_bind {A B} (c : M A) (k : A -> M B) :
  logs_only c -> (forall a, logs_only (k a)) -> logs_only (bind c k).
Proof.
  intros (o & evs & Hc) Hk. destruct o as [a| e |].
  - destruct (Hk a) as (o' & evs' & Hka).
    exists o', (evs ++ evs'). intros w. unfold bind.
    now rewrite Hc, Hka, logged_logged.
  - exists (Raises e), evs. intros w. unfold bind. now rewrite Hc.
  - exists OutOfFuel, evs. intros w. unfold bind. now rewrite Hc.
Qed.

Lemma fuel_free_ret {A} (a : A) : fuel_free (ret a).
Proof. intros w. discriminate. Qed.

Lemma fuel_free_raise {A} (e : exn) : fuel_free (@raise A e).
Proof. intros w. discriminate. Qed.

Lemma fuel_free_lift {A} (o : outcome A) : o <> OutOfFuel -> fuel_free (lift o).
Proof. intros Ho w. exact Ho. Qed.

Lemma fuel_free_print (m : message) : fuel_free (print m).
Proof. intros w. discriminate. Qed.

Lemma fuel_free_bind {A B} (c : M A) (k : A -> M B) :
  fuel_free c -> (forall a, fuel_free (k a)) -> fuel_free (bind c k).
Proof.
  intros Hc Hk w. unfold bind. specialize (Hc w).
  destruct (c w) as [[a|e|] w']; simpl in *;
    [apply Hk | discriminate | contradiction].
Qed.

Lemma py_iter_fuel_free (v : pyval) : py_iter v <> OutOfFuel.
Proof. destruct v; discriminate. Qed.

Lemma str_add_fuel_free (prefix : string) (v : pyval) : str_add prefix v <> OutOfFuel.
Proof. destruct v; discriminate. Qed.

End WorldFacts.

Create HintDb logs.

#[local] Hint Resolve logs_only_ret logs_only_lift logs_only_raise
  logs_only_print logs_only_bind : logs.

#[local] Hint Resolve fuel_free_ret fuel_free_raise fuel_free_lift
  fuel_free_print fuel_free_bind py_iter_fuel_free str_add_fuel_free : logs.

(** ** The dataset writer *)

Section WriterFacts.

Variable pdf_file_name : string.

Lemma print_run (m : message) (w : world) :
  print m w = (Returns tt, logged [Print m] w).
Proof. reflexivity. Qed.

Lemma save_pairs_logs_only :
  forall (qa_items : list pyval) (modified_qas : list QARecord),
    logs_only (save_pairs pdf_file_name qa_items modified_qas).
Proof.
  induction qa_items as [|qa rest IH]; intros modified_qas; simpl.
  - auto with logs.
  - destruct qa as [| | |items|items]; auto with logs.
    destruct items as [|question [|answer [|extra items]]]; auto 6 with logs.
Qed.

Lemma save_lists_logs_only :
  forall (qas : list pyval) (modified_qas : list QARecord),
    logs_only (save_lists pdf_file_name qas modified_qas).
Proof.
  induction qas as [|qa_list rest IH]; intros modified_qas; simpl.
  - auto with logs.
  - apply logs_only_bind; [auto with logs|]. intros qa_items.
    apply logs_only_bind; [apply save_pairs_logs_only | auto].
Qed.

Lemma save_pairs_fuel_free :
  forall (qa_items : list pyval) (modified_qas : list QARecord),
    fuel_free (save_pairs pdf_file_name qa_items modified_qas).
Proof.
  induction qa_items as [|qa rest IH]; intros modified_qas; simpl.
  - auto with logs.
  - destruct qa as [| | |items|items]; auto with logs.
    destruct items as [|question [|answer [|extra items]]]; auto 6 with logs.
Qed.

Lemma save_lists_fuel_free :
  forall (qas : list pyval) (modified_qas : list QARecord),
    fuel_free (save_lists pdf_file_name qas modified_qas).
Proof.
  induction qas as [|qa_list rest IH]; intros modified_qas; simpl.
  - auto with logs.
  - apply fuel_free_bind; [auto with logs|]. intros qa_items.
    apply fuel_free_bind; [apply save_pairs_fuel_free | auto].
Qed.

Lemma pairs_are_strings_tail (qa : pyval) (items : list pyval) :
  pairs_are_strings (qa :: items) -> pairs_are_strings items.
Proof. intros H q a Hin. apply H. now right. Qed.

Lemma pairs_are_strings_app (items1 items2 : list pyval) :
  pairs_are_strings (items1 ++ items2) ->
  pairs_are_strings items1 /\ pairs_are_strings items2.
Proof.
  intros H. split; intros q a Hin; apply H, in_or_app; [now left | now right].
Qed.

(** The inner loop on items of which every two-element tuple is a pair
    of strings: one record per such pair, one diagnostic per other
    item. *)
Lemma save_pairs_records :
  forall (qa_items : list pyval),
    pairs_are_strings qa_items ->
    forall (modified_qas : list QARecord) (w : world),
      save_pairs pdf_file_name qa_items modified_qas w
      = (Returns (modified_qas ++ flat_map (item_records pdf_file_name) qa_items),
         logged (flat_map item_log qa_items) w).
Proof.
  induction qa_items as [|qa rest IH]; intros Hstr modified_qas w.
  - simpl. unfold ret. now rewrite app_nil_r, logged_nil.
  - pose proof (pairs_are_strings_tail _ _ Hstr) as Hrest.
    assert (Hskip : forall w0,
               bind (print (InvalidQAFormat qa))
                 (fun _ => save_pairs pdf_file_name rest modified_qas) w0
               = (Returns (modified_qas ++ flat_map (item_records pdf_file_name) rest),
                  logged (Print (InvalidQAFormat qa) :: flat_map item_log rest) w0)).
    { intros w0. unfold bind. rewrite print_run, IH by exact Hrest.
      now rewrite logged_logged. }
    destruct qa as [| | |items|items]; try apply Hskip.
    destruct items as [|question [|answer [|extra items]]].
    + apply Hskip.
    + destruct question; apply Hskip.
    + destruct (Hstr question answer (or_introl eq_refl)) as (s & t & -> & ->).
      simpl. unfold bind, lift. simpl. rewrite IH by exact Hrest.
      now rewrite <- app_assoc.
    + destruct question; try apply Hskip. destruct answer; apply Hskip.
Qed.

Lemma save_lists_records :
  forall (qas : list pyval) (itemss : list (list pyval)),
    Forall2 (fun qa_list qa_items => py_iter qa_list = Returns qa_items) qas itemss ->
    pairs_are_strings (concat itemss) ->
    forall (modified_qas : list QARecord) (w : world),
      save_lists pdf_file_name qas modified_qas w
      = (Returns (modified_qas ++ flat_map (item_records pdf_file_name) (concat itemss)),
         logged (flat_map item_log (concat itemss)) w).
Proof.
  intros qas itemss Hiter.
  induction Hiter as [|qa_list qa_items qas itemss Hhead Htail IH];
    intros Hstr modified_qas w.
  - simpl. unfold ret. now rewrite app_nil_r, logged_nil.
  - simpl in Hstr. apply pairs_are_strings_app in Hstr as [Hstr1 Hstr2].
    simpl. unfold bind, lift. rewrite Hhead.
    rewrite save_pairs_records by exact Hstr1.
    rewrite IH by exact Hstr2.
    rewrite !flat_map_app, logged_logged. now rewrite <- app_assoc.
Qed.

End WriterFacts.

(** The writer either creates or replaces the output file with the dump
    of the records it has built, or it raises before the file is opened
    and leaves every file as it was. Which of the two, and the records,
    do not depend on the world. *)
Lemma save_qas_to_json_shape (qas : list pyval) (output_file pdf_file_path : string) :
  (exists (records : list QARecord) (evs : list event),
      forall w, save_qas_to_json qas output_file pdf_file_path w
                = (Returns tt, stored output_file (json.dumps records) (logged evs w))) \/
  (exists (e : exn) (evs : list event),
      forall w, save_qas_to_json qas output_file pdf_file_path w
                = (Raises e, logged evs w)).
Proof.
  destruct (save_lists_logs_only (document_name pdf_file_path) qas [])
    as (o & evs & Hrun).
  unfold save_qas_to_json. fold (document_name pdf_file_path).
  destruct o as [records|e|].
  - left. exists records, evs. intros w. unfold bind. now rewrite Hrun.
  - right. exists e, evs. intros w. unfold bind. now rewrite Hrun.
  - exfalso.
    apply (save_lists_fuel_free (document_name pdf_file_path) qas [] empty_world).
    now rewrite Hrun.
Qed.

(** ** Paths *)




(** ** The dataset writer: claims *)



(** C5, as it stands, fails: the writer looks at the shape of an entry
    only, so a pair of empty strings is stored, as a record whose
    question and answer are empty after their labels. *)
Lemma empty_question_and_answer_are_stored :
  save_qas_to_json [PList [PTuple [PStr EmptyString; PStr EmptyString]]]
    "qa_dataset.json" "doc1.pdf" empty_world
  = (Returns tt,
     stored "qa_dataset.json"
       (json.dumps [{| Reference := "doc1";
                       Question := String.append "Question: " EmptyString;
                       Answer := String.append "Answer: " EmptyString |}])
       empty_world).
Proof. reflexivity. Qed.

(** C5, amended. When every entry of [qas] can be walked over and every
    two-element tuple met is a pair of strings, [save_qas_to_json]
    stores exactly one record per such tuple, in order: the record
    carries the document name, [Question: ] followed by the first string
    and [Answer: ] followed by the second, either of which may be empty.
    Every other item is reported and dropped. *)
Theorem stored_records_come_from_pairs :
  forall (qas : list pyval) (itemss : list (list pyval))
         (output_file pdf_file_path : string) (w : world),
    Forall2 (fun qa_list qa_items => py_iter qa_list = Returns qa_items) qas itemss ->
    pairs_are_strings (concat itemss) ->
    save_qas_to_json qas output_file pdf_file_path w
    = (Returns tt,
       stored output_file
         (json.dumps
            (flat_map (item_records (document_name pdf_file_path)) (concat itemss)))
         (logged (flat_map item_log (concat itemss)) w)) /\
    (forall r : QARecord,
        In r (flat_map (item_records (document_name pdf_file_path)) (concat itemss))
        <-> exists question answer : string,
              In (PTuple [PStr question; PStr answer]) (concat itemss) /\
              r = {| Reference := document_name pdf_file_path;
                     Question := String.append "Question: " question;
                     Answer := String.append "Answer: " answer |}).
Proof.
  intros qas itemss output_file pdf_file_path w Hiter Hstr. split.
  - unfold save_qas_to_json. fold (document_name pdf_file_path).
    unfold bind. now rewrite (save_lists_records _ _ _ Hiter Hstr).
  - intros r. rewrite in_flat_map. split.
    + intros (qa & Hin & Hr).
      destruct qa as [| | |items|items]; try contradiction.
      destruct items as [|[| |question| |] [|[| |answer| |] [|extra items]]];
        try contradiction.
      destruct Hr as [<-|[]]. now exists question, answer.
    + intros (question & answer & Hin & ->).
      exists (PTuple [PStr question; PStr answer]). split; [exact Hin | now left].
Qed.

Lemma stored_records_come_from_pairs_witness :
  save_qas_to_json
    [PList [PTuple [PStr "Q1"; PStr "A1"]; PTuple [PStr "alone"]; PStr "Q2"];
     PList [PTuple [PStr "Q3"; PStr EmptyString]]]
    "qa_dataset.json" "C:\docs\report.v2.pdf" empty_world
  = (Returns tt,
     stored "qa_dataset.json"
       (json.dumps
          [{| Reference := "report.v2"; Question := "Question: Q1"; Answer := "Answer: A1" |};
           {| Reference := "report.v2"; Question := "Question: Q3"; Answer := "Answer: " |}])
       (logged [Print (InvalidQAFormat (PTuple [PStr "alone"]));
                Print (InvalidQAFormat (PStr "Q2"))] empty_world)).
Proof.
  refine (proj1 (stored_records_come_from_pairs _
            [[PTuple [PStr "Q1"; PStr "A1"]; PTuple [PStr "alone"]; PStr "Q2"];
             [PTuple [PStr "Q3"; PStr EmptyString]]] _ _ _ _ _)).
  - repeat constructor.
  - intros q a Hin. simpl in Hin.
    destruct Hin as [H|[H|[H|[H|[]]]]]; inversion H; eauto.
Defined.

(** ** The QA generator *)

Section GeneratorFacts.

Variable model : QGModel.

Lemma generate_parts_logs_only :
  forall (parts : list string) (qas : list pyval),
    logs_only (generate_parts model parts qas).
Proof.
  induction parts as [|part rest IH]; intros qas; simpl.
  - auto with logs.
  - destruct (generate_qa model [part]) as [qa_part|e|]; auto with logs.
    destruct (is_AnswerNotFoundError e); auto with logs.
Qed.

Lemma generate_texts_logs_only (fuel : nat) (tokenizer : Tokenizer) :
  forall (texts : list string) (qas : list pyval),
    logs_only (generate_texts model fuel texts tokenizer qas).
Proof.
  induction texts as [|text rest IH]; intros qas; simpl.
  - auto with logs.
  - apply logs_only_bind; [auto with logs|]. intros parts.
    apply logs_only_bind; [apply generate_parts_logs_only | auto].
Qed.

(** Parts whose model call returns or finds no answer: the results are
    collected in order, the failures are reported. *)
Lemma generate_parts_tolerated :
  forall parts : list string,
    Forall (fun part => tolerated (generate_qa model [part])) parts ->
    forall (qas : list pyval) (w : world),
      generate_parts model parts qas w
      = (Returns (qas ++ flat_map (part_pairs model) parts),
         logged (flat_map (part_log model) parts) w).
Proof.
  intros parts Hall.
  induction Hall as [|part rest Hpart Hrest IH]; intros qas w.
  - simpl. unfold ret. now rewrite app_nil_r, logged_nil.
  - simpl. unfold part_pairs at 1, part_log at 1.
    destruct (generate_qa model [part]) as [qa_part|e|]; simpl in Hpart.
    + rewrite IH. now rewrite <- app_assoc.
    + rewrite Hpart. unfold bind. rewrite print_run, IH.
      now rewrite logged_logged.
    + contradiction.
Qed.

Lemma generate_parts_app :
  forall (parts1 parts2 : list string) (qas : list pyval) (w : world),
    generate_parts model (parts1 ++ parts2) qas w
    = bind (generate_parts model parts1 qas)
        (fun qas' => generate_parts model parts2 qas') w.
Proof.
  induction parts1 as [|part rest IH]; intros parts2 qas w; simpl.
  - reflexivity.
  - destruct (generate_qa model [part]) as [qa_part|e|].
    + apply IH.
    + destruct (is_AnswerNotFoundError e); [|reflexivity].
      unfold bind. rewrite print_run. now rewrite IH.
    + reflexivity.
Qed.

(** The first part whose model call raises anything else ends the loop. *)
Lemma generate_parts_abort :
  forall (good : list string) (bad : string) (rest : list string) (e : exn),
    Forall (fun part => tolerated (generate_qa model [part])) good ->
    generate_qa model [bad] = Raises e ->
    is_AnswerNotFoundError e = false ->
    forall (qas : list pyval) (w : world),
      generate_parts model (good ++ bad :: rest) qas w
      = (Raises e, logged (flat_map (part_log model) good) w).
Proof.
  intros good bad rest e Hgood Hbad He qas w.
  rewrite generate_parts_app. unfold bind.
  rewrite generate_parts_tolerated by exact Hgood.
  simpl. now rewrite Hbad, He.
Qed.

Lemma generate_texts_parts (fuel : nat) (tokenizer : Tokenizer) :
  forall (texts : list string) (partss : list (list string)),
    Forall2 (fun text parts =>
               split_text_into_smaller_chunks fuel text tokenizer
                 default_max_length default_overlap = Returns parts)
      texts partss ->
    forall (qas : list pyval) (w : world),
      generate_texts model fuel texts tokenizer qas w
      = generate_parts model (concat partss) qas w.
Proof.
  intros texts partss Hsplit.
  induction Hsplit as [|text parts texts partss Hhead Htail IH]; intros qas w.
  - reflexivity.
  - simpl. rewrite generate_parts_app. unfold bind at 1, lift. rewrite Hhead.
    unfold bind. destruct (generate_parts model parts qas w) as [[qas'|e|] w'];
      [apply IH | reflexivity | reflexivity].
Qed.

(** A call of [generate_qas] either replaces [qa_dataset.json] or
    leaves every file alone; which of the two, and the content written,
    do not depend on the world. *)
Lemma generate_qas_shape (fuel : nat) (texts : list string) (tokenizer : Tokenizer)
    (pdf_file_path : string) :
  (exists (content : string) (evs : list event),
      forall w, generate_qas model fuel texts tokenizer pdf_file_path w
                = (Returns tt, stored "qa_dataset.json" content (logged evs w))) \/
  (exists (o : outcome unit) (evs : list event),
      o <> Returns tt /\
      forall w, generate_qas model fuel texts tokenizer pdf_file_path w
                = (o, logged evs w)).
Proof.
  destruct (generate_texts_logs_only fuel tokenizer texts []) as (o & evs & Hrun).
  unfold generate_qas. destruct o as [qas|e|].
  - destruct (save_qas_to_json_shape qas "qa_dataset.json" pdf_file_path)
      as [(records & evs' & Hsave)|(e & evs' & Hsave)].
    + left. exists (json.dumps records), (evs ++ evs'). intros w.
      unfold bind. now rewrite Hrun, Hsave, logged_logged.
    + right. exists (Raises e), (evs ++ evs'). split; [discriminate|]. intros w.
      unfold bind. now rewrite Hrun, Hsave, logged_logged.
  - right. exists (Raises e), evs. split; [discriminate|]. intros w.
    unfold bind. now rewrite Hrun.
  - right. exists OutOfFuel, evs. split; [discriminate|]. intros w.
    unfold bind. now rewrite Hrun.
Qed.

End GeneratorFacts.

(** C6. In [generate_qas] the no-answer condition is caught part by
    part: a part on which the model raises it adds no pair and one
    console line, and the loop goes on, so that the writer receives the
    pairs of all other parts, in order. Any other exception of the model
    is not caught: [generate_qas] raises it at the first such part, the
    parts after it are not processed, and no file is written. *)
Theorem no_answer_is_skipped_and_other_errors_abort :
  forall (model : QGModel) (fuel : nat) (texts : list string) (tokenizer : Tokenizer)
         (pdf_file_path : string) (partss : list (list string)) (w : world),
    Forall2 (fun text parts =>
               split_text_into_smaller_chunks fuel text tokenizer
                 default_max_length default_overlap = Returns parts)
      texts partss ->
    (forall (part : string) (e : exn),
        generate_qa model [part] = Raises e -> is_AnswerNotFoundError e = true ->
        part_pairs model part = [] /\
        part_log model part = [Print (SkippingPart e)]) /\
    (forall (part : string) (qa_part : list pyval),
        generate_qa model [part] = Returns qa_part ->
        part_pairs model part = qa_part /\ part_log model part = []) /\
    (Forall (fun part => tolerated (generate_qa model [part])) (concat partss) ->
     generate_qas model fuel texts tokenizer pdf_file_path w
     = save_qas_to_json (flat_map (part_pairs model) (concat partss))
         "qa_dataset.json" pdf_file_path
         (logged (flat_map (part_log model) (concat partss)) w)) /\
    (forall (good : list string) (bad : string) (rest : list string) (e : exn),
        concat partss = good ++ bad :: rest ->
        Forall (fun part => tolerated (generate_qa model [part])) good ->
        generate_qa model [bad] = Raises e ->
        is_AnswerNotFoundError e = false ->
        generate_qas model fuel texts tokenizer pdf_file_path w
        = (Raises e, logged (flat_map (part_log model) good) w)).
Proof.
  intros model fuel texts tokenizer pdf_file_path partss w Hsplit.
  split; [|split; [|split]].
  - intros part e Hraise He. unfold part_pairs, part_log. now rewrite Hraise, He.
  - intros part qa_part Hret. unfold part_pairs, part_log. now rewrite Hret.
  - intros Hall. unfold generate_qas, bind at 1.
    rewrite (generate_texts_parts model fuel tokenizer texts partss Hsplit).
    now rewrite generate_parts_tolerated.
  - intros good bad rest e Hparts Hgood Hbad He. unfold generate_qas, bind at 1.
    rewrite (generate_texts_parts model fuel tokenizer texts partss Hsplit).
    rewrite Hparts. now rewrite (generate_parts_abort model good bad rest e).
Qed.

Lemma no_answer_is_skipped_and_other_errors_abort_witness :
  generate_qas sample_model 1 ["Water boils."; "?"; "Ice melts."] char_tokenizer
    "docs\a.pdf" empty_world
  = (Returns tt,
     stored "qa_dataset.json"
       (json.dumps
          [{| Reference := "a"; Question := "Question: What does it say?";
              Answer := "Answer: Water boils." |};
           {| Reference := "a"; Question := "Question: What does it say?";
              Answer := "Answer: Ice melts." |}])
       (logged [Print (SkippingPart no_answer)] empty_world)) /\
  generate_qas sample_model 1 ["Water boils."; "?"; "!"; "Ice melts."] char_tokenizer
    "docs\a.pdf" empty_world
  = (Raises out_of_memory, logged [Print (SkippingPart no_answer)] empty_world).
Proof.
  split.
  - refine (proj1 (proj2 (proj2
      (no_answer_is_skipped_and_other_errors_abort sample_model 1
         ["Water boils."; "?"; "Ice melts."] char_tokenizer "docs\a.pdf"
         [["Water boils."]; ["?"]; ["Ice melts."]] empty_world _))) _).
    + repeat constructor.
    + repeat constructor.
  - refine (proj2 (proj2 (proj2
      (no_answer_is_skipped_and_other_errors_abort sample_model 1
         ["Water boils."; "?"; "!"; "Ice melts."] char_tokenizer "docs\a.pdf"
         [["Water boils."]; ["?"]; ["!"]; ["Ice melts."]] empty_world _)))
      ["Water boils."; "?"] "!" ["Ice melts."] out_of_memory _ _ _ _).
    + repeat constructor.
    + reflexivity.
    + repeat constructor.
    + reflexivity.
    + reflexivity.
Defined.

(** ** The files a run works on *)

Section SelectionFacts.

Variable max_files : Z.

Lemma selected_pdfs_remaining (listing : list string) :
  selected_pdfs max_files listing = remaining_pdfs max_files 0 listing.
Proof.
  unfold selected_pdfs, remaining_pdfs.
  now replace (max_files - Z.of_nat 0) with max_files by lia.
Qed.

Lemma remaining_pdfs_nil (done : nat) : remaining_pdfs max_files done [] = [].
Proof. unfold remaining_pdfs. simpl. destruct (max_files =? 0); [|rewrite firstn_nil]; reflexivity. Qed.

Lemma remaining_pdfs_skip (done : nat) (filename : string) (rest : list string) :
  PyStr.endswith filename ".pdf" = false ->
  remaining_pdfs max_files done (filename :: rest) = remaining_pdfs max_files done rest.
Proof. intros H. unfold remaining_pdfs. simpl. now rewrite H. Qed.

Lemma remaining_pdfs_capped (done : nat) (listing : list string) :
  negb (max_files =? 0) && (Z.of_nat done >=? max_files) = true ->
  remaining_pdfs max_files done listing = [].
Proof.
  intros H. apply andb_prop in H as [H0 Hcap].
  apply negb_true_iff in H0. unfold remaining_pdfs. rewrite H0.
  replace (Z.to_nat (max_files - Z.of_nat done)) with 0%nat; [reflexivity|].
  apply Z.geb_le in Hcap. lia.
Qed.

Lemma remaining_pdfs_take (done : nat) (filename : string) (rest : list string) :
  PyStr.endswith filename ".pdf" = true ->
  negb (max_files =? 0) && (Z.of_nat done >=? max_files) = false ->
  remaining_pdfs max_files done (filename :: rest)
  = filename :: remaining_pdfs max_files (S done) rest.
Proof.
  intros Hpdf H. unfold remaining_pdfs. simpl. rewrite Hpdf.
  destruct (max_files =? 0) eqn:H0; [reflexivity|].
  simpl in H. assert (Hlt : Z.of_nat done < max_files).
  { destruct (Z.of_nat done >=? max_files) eqn:Hge; [discriminate|].
    rewrite Z.geb_leb in Hge. apply Z.leb_gt in Hge. lia. }
  replace (Z.to_nat (max_files - Z.of_nat done))
    with (S (Z.to_nat (max_files - Z.of_nat (S done)))) by lia.
  reflexivity.
Qed.

End SelectionFacts.

(** ** The run driver *)

Section DriverFacts.

Variable model : QGModel.
Variable host : Host.
Variables (fuel : nat) (folder_path output_file : string) (max_files : Z).


Lemma on_completion_keeps_files (w : world) :
  exists evs : list event, on_completion host w = (Returns tt, logged evs w).
Proof.
  unfold on_completion. destruct (message_box host =? 2).
  - exists [Print SleepCancelled]. reflexivity.
  - exists [Print PuttingToSleep; Sleep 20;
            System "rundll32.exe powrprof.dll,SetSuspendState 0,1,0"].
    unfold bind, print, emit, logged. simpl.
    now rewrite <- !app_assoc.
Qed.

End DriverFacts.



(** ** The PDF text extractor *)

Lemma append_empty_r (s : string) : String.append s EmptyString = s.
Proof.
  induction s as [|c s IH]; [reflexivity|].
  change (String c (String.append s EmptyString) = String c s). now rewrite IH.
Qed.

Lemma append_assoc (s1 s2 s3 : string) :
  String.append (String.append s1 s2) s3 = String.append s1 (String.append s2 s3).
Proof.
  induction s1 as [|c s1 IH]; [reflexivity|].
  change (String c (String.append (String.append s1 s2) s3)
          = String c (String.append s1 (String.append s2 s3))).
  now rewrite IH.
Qed.

(** The text of a document is its page texts one after the other, with
    nothing between them. *)
Lemma document_text_concat (doc : list string) :
  document_text doc = String.concat EmptyString doc.
Proof.
  unfold document_text.
  assert (H : forall text,
             fold_left (fun text page_text => String.append text page_text) doc text
             = String.append text (String.concat EmptyString doc)).
  { induction doc as [|page rest IH]; intros text; simpl.
    - now rewrite append_empty_r.
    - rewrite IH, append_assoc. f_equal.
      destruct rest; simpl; [now rewrite append_empty_r | reflexivity]. }
  apply H.
Qed.

Section ExtractorFacts.

Variable host : Host.
Variables (folder_path : string) (max_files : Z).
Variable docs : string -> list string.

Lemma extract_loop_selected :
  forall (listing texts : list string) (done : nat),
    (forall filename,
        In filename (remaining_pdfs max_files done listing) ->
        fitz_open host (ntpath.join folder_path filename) = Returns (docs filename)) ->
    extract_loop host folder_path max_files listing texts (Z.of_nat done)
    = Returns (texts ++ flat_map (fun filename =>
                                    [document_text (docs filename); PyStr.two_newlines])
                          (remaining_pdfs max_files done listing)).
Proof.
  induction listing as [|filename rest IH]; intros texts done Hopen; simpl.
  - now rewrite remaining_pdfs_nil, app_nil_r.
  - destruct (PyStr.endswith filename ".pdf") eqn:Hpdf.
    + destruct (negb (max_files =? 0) && (Z.of_nat done >=? max_files)) eqn:Hcap.
      * rewrite remaining_pdfs_capped by exact Hcap. now rewrite app_nil_r.
      * rewrite remaining_pdfs_take in * by assumption.
        rewrite (Hopen filename) by now left.
        replace (Z.of_nat done + 1) with (Z.of_nat (S done)) by lia.
        rewrite IH by (intros f Hf; apply Hopen; now right).
        simpl. now rewrite <- !app_assoc.
    + rewrite remaining_pdfs_skip in * by exact Hpdf. now apply IH.
Qed.

End ExtractorFacts.

(** C4, as it stands, fails: after the text of each PDF file the
    extractor appends a separator entry of two line feeds, so a folder
    with two PDF files gives four entries, not two. *)
Lemma two_pdfs_give_four_entries :
  selected_pdfs 0 ["a.pdf"; "notes.txt"; "b.pdf"] = ["a.pdf"; "b.pdf"] /\
  extract_text_from_pdfs sample_host "docs" 0
  = Returns ["Alpha one."; PyStr.two_newlines; "Beta."; PyStr.two_newlines].
Proof. split; reflexivity. Qed.

(** C4, amended. Given a folder, [extract_text_from_pdfs] works on the
    entries of the listing whose name ends in [.pdf], in listing order,
    and on no more than [max_files] of them unless [max_files] is [0].
    For each of them, when it can be opened, the result holds two
    entries: the texts of its pages one after the other with nothing
    between them, and then a separator entry of two line feeds. *)
Theorem extract_text_gives_text_and_separator_per_pdf :
  forall (host : Host) (folder_path : string) (max_files : Z)
         (listing : list string) (docs : string -> list string),
    listdir host folder_path = Returns listing ->
    (forall filename,
        In filename (selected_pdfs max_files listing) ->
        fitz_open host (ntpath.join folder_path filename) = Returns (docs filename)) ->
    exists texts : list string,
      extract_text_from_pdfs host folder_path max_files = Returns texts /\
      texts = flat_map (fun filename =>
                          [String.concat EmptyString (docs filename); PyStr.two_newlines])
                (selected_pdfs max_files listing) /\
      length texts = (2 * length (selected_pdfs max_files listing))%nat.
Proof.
  intros host folder_path max_files listing docs Hlist Hopen.
  exists (flat_map (fun filename =>
                      [String.concat EmptyString (docs filename); PyStr.two_newlines])
            (selected_pdfs max_files listing)).
  split; [|split; [reflexivity|]].
  - unfold extract_text_from_pdfs. rewrite Hlist.
    rewrite selected_pdfs_remaining in *.
    change (extract_loop host folder_path max_files listing [] 0)
      with (extract_loop host folder_path max_files listing [] (Z.of_nat 0)).
    rewrite (extract_loop_selected host folder_path max_files docs listing [] 0 Hopen).
    simpl. f_equal. apply flat_map_ext. intros filename.
    now rewrite document_text_concat.
  - clear Hopen.
    induction (selected_pdfs max_files listing) as [|f l IH]; simpl; [reflexivity|].
    rewrite IH. lia.
Qed.

Lemma extract_text_gives_text_and_separator_per_pdf_witness :
  exists texts : list string,
    extract_text_from_pdfs sample_host "docs" 1 = Returns texts /\
    texts = flat_map (fun filename =>
                        [String.concat EmptyString
                           ((fun _ : string => ["Alpha "; "one."]) filename);
                         PyStr.two_newlines])
              (selected_pdfs 1 ["a.pdf"; "notes.txt"; "b.pdf"]) /\
    length texts = (2 * length (selected_pdfs 1 ["a.pdf"; "notes.txt"; "b.pdf"]))%nat.
Proof.
  apply (extract_text_gives_text_and_separator_per_pdf sample_host "docs" 1
           ["a.pdf"; "notes.txt"; "b.pdf"] (fun _ => ["Alpha "; "one."])).
  - reflexivity.
  - intros filename Hin. simpl in Hin. destruct Hin as [<-|[]]. reflexivity.
Defined.

(** * Further properties of the code *)

(** ** More on strings *)

Section MoreStringFacts.

Lemma substring_empty (n m : nat) : String.substring n m EmptyString = EmptyString.
Proof. destruct n, m; reflexivity. Qed.

Lemma substring_zero (s : string) : forall n : nat,
  String.substring n 0 s = EmptyString.
Proof.
  induction s as [|c s IH]; intros n; [apply substring_empty|].
  destruct n as [|n]; [reflexivity | apply IH].
Qed.

(** A substring of a substring is a substring. *)
Lemma substring_substring (s : string) : forall n m a b : nat,
  String.substring a b (String.substring n m s)
  = String.substring (n + a) (Nat.min b (m - a)) s.
Proof.
  induction s as [|c s IH]; intros n m a b.
  - now rewrite !substring_empty.
  - destruct n as [|n]; [|apply IH].
    destruct m as [|m].
    + change (String.substring 0 0 (String c s)) with EmptyString.
      rewrite substring_empty.
      replace (Nat.min b (0 - a)) with 0%nat by lia.
      now rewrite substring_zero.
    + cbn [String.substring Nat.add]. destruct a as [|a].
      * destruct b as [|b]; [reflexivity|].
        cbn [String.substring Nat.sub Nat.min]. f_equal.
        rewrite (IH 0%nat m 0%nat b). cbn [Nat.add]. f_equal. lia.
      * cbn [String.substring Nat.sub]. apply (IH 0%nat m a b).
Qed.

(** Cutting a substring in two. *)
Lemma substring_split (s : string) : forall a b c : nat,
  String.substring a (b + c) s
  = String.append (String.substring a b s) (String.substring (a + b) c s).
Proof.
  induction s as [|x s IH]; intros a b c.
  - now rewrite !substring_empty.
  - destruct a as [|a].
    + destruct b as [|b]; [reflexivity|].
      cbn [String.substring Nat.add].
      change (String x (String.substring 0 (b + c) s)
              = String x (String.append (String.substring 0 b s)
                            (String.substring b c s))).
      f_equal. apply (IH 0%nat b c).
    + cbn [Nat.add]. destruct b as [|b].
      * cbn [Nat.add]. rewrite substring_zero. rewrite Nat.add_0_r. reflexivity.
      * cbn [String.substring]. rewrite (IH a (S b) c). reflexivity.
Qed.

Lemma concat_empty_cons (x : string) (xs : list string) :
  String.concat EmptyString (x :: xs)
  = String.append x (String.concat EmptyString xs).
Proof. destruct xs; simpl; [now rewrite append_empty_r | reflexivity]. Qed.

End MoreStringFacts.

(** ** More on the window loop *)

Section MoreChunkerFacts.

Variable text : string.
Variables max_length overlap : Z.

Lemma split_loop_more_fuel :
  forall (fuel : nat) (st : split_state) (windows : list string),
    split_loop text max_length overlap fuel st = Some windows ->
    forall fuel' : nat, (fuel <= fuel')%nat ->
      split_loop text max_length overlap fuel' st = Some windows.
Proof.
  induction fuel as [|fuel IH]; intros st windows Hrun fuel' Hle.
  - simpl in Hrun. destruct (split_continues text st) eqn:Hgo; [discriminate|].
    destruct fuel'; simpl; now rewrite Hgo.
  - destruct fuel' as [|fuel']; [lia|]. simpl in *.
    destruct (split_continues text st); [|exact Hrun].
    apply (IH _ _ Hrun). lia.
Qed.

(** Whenever the loop returns under a positive step, it returns the
    windows of the closed form. *)
Lemma preliminary_split_text_returns (fuel : nat) (windows : list string) :
  overlap < max_length ->
  preliminary_split_text text max_length overlap fuel = Some windows ->
  windows = nth_window text max_length overlap
              <$> seq 0 (window_count text max_length overlap).
Proof.
  intros Hstep Hrun.
  pose proof (split_loop_more_fuel fuel _ _ Hrun
                (Nat.max fuel (window_count text max_length overlap))
                (Nat.le_max_l _ _)) as Hmore.
  fold (preliminary_split_text text max_length overlap
          (Nat.max fuel (window_count text max_length overlap))) in Hmore.
  rewrite preliminary_split_text_windows in Hmore by (try apply Nat.le_max_r; lia).
  now injection Hmore.
Qed.

(** A window of the closed form starts inside the text. *)
Lemma window_starts_inside (k : nat) :
  overlap < max_length ->
  (k < window_count text max_length overlap)%nat ->
  Z.of_nat k * (max_length - overlap) < PyStr.len text.
Proof.
  intros Hstep Hk.
  destruct (window_count_least text max_length overlap ltac:(lia)) as [H0|Hlast];
    [lia | nia].
Qed.

End MoreChunkerFacts.

(** X1. When [overlap < max_length], the number of windows that
    [preliminary_split_text] returns is the text length divided by the
    step [max_length - overlap], rounded up. *)
Theorem number_of_windows :
  forall (text : string) (max_length overlap : Z) (fuel : nat) (windows : list string),
    overlap < max_length ->
    preliminary_split_text text max_length overlap fuel = Some windows ->
    Z.of_nat (length windows)
    = (PyStr.len text + (max_length - overlap) - 1) / (max_length - overlap).
Proof.
  intros text max_length overlap fuel windows Hstep Hrun.
  rewrite (preliminary_split_text_returns _ _ _ _ _ Hstep Hrun).
  rewrite length_fmap, length_seq. unfold window_count.
  apply Z2Nat.id, Z.div_pos; pose proof (len_nonneg text); lia.
Qed.

Lemma number_of_windows_witness :
  Z.of_nat (length ["abcd"; "defg"; "ghij"; "j"]) = (PyStr.len "abcdefghij" + (4 - 1) - 1) / (4 - 1).
Proof.
  apply (number_of_windows "abcdefghij" 4 1 4 ["abcd"; "defg"; "ghij"; "j"]).
  - reflexivity.
  - reflexivity.
Defined.

(** X2. When [0 < max_length] and [overlap < max_length], no window
    that [preliminary_split_text] returns is empty: the model is never
    handed an empty part because of the windowing. *)
Theorem windows_are_not_empty :
  forall (text : string) (max_length overlap : Z) (fuel : nat) (windows : list string),
    0 < max_length -> overlap < max_length ->
    preliminary_split_text text max_length overlap fuel = Some windows ->
    Forall (fun window => window <> EmptyString) windows.
Proof.
  intros text max_length overlap fuel windows Hpos Hstep Hrun.
  rewrite (preliminary_split_text_returns _ _ _ _ _ Hstep Hrun).
  apply Forall_fmap, Forall_forall. intros k Hk. simpl.
  apply elem_of_seq in Hk. destruct Hk as [_ Hk]. simpl in Hk.
  pose proof (window_starts_inside text max_length overlap k Hstep Hk) as Hin.
  unfold nth_window.
  assert (Hstart : 0 <= Z.of_nat k * (max_length - overlap)) by nia.
  set (start := Z.of_nat k * (max_length - overlap)) in *.
  rewrite slice_window by lia.
  intros Hempty.
  pose proof (substring_length text (Z.to_nat start) (Z.to_nat max_length)) as Hlen.
  rewrite Hempty in Hlen. change (String.length EmptyString) with 0%nat in Hlen.
  unfold PyStr.len in Hin. lia.
Qed.

Lemma windows_are_not_empty_witness :
  Forall (fun window => window <> EmptyString) ["abcd"; "defg"; "ghij"; "j"].
Proof.
  apply (windows_are_not_empty "abcdefghij" 4 1 4 ["abcd"; "defg"; "ghij"; "j"]).
  - reflexivity.
  - reflexivity.
  - reflexivity.
Defined.

(** X3. When [0 <= overlap < max_length], two windows in a row share
    the overlap: what the earlier window holds from offset
    [max_length - overlap] on is what the later one holds in its first
    [overlap] characters. *)
Theorem neighbouring_windows_share_the_overlap :
  forall (text : string) (max_length overlap : Z) (fuel : nat)
         (windows : list string) (k : nat) (earlier later : string),
    0 <= overlap -> overlap < max_length ->
    preliminary_split_text text max_length overlap fuel = Some windows ->
    windows !! k = Some earlier ->
    windows !! S k = Some later ->
    String.substring (Z.to_nat (max_length - overlap)) (Z.to_nat overlap) earlier
    = String.substring 0 (Z.to_nat overlap) later.
Proof.
  intros text max_length overlap fuel windows k earlier later Hov Hstep Hrun Hk HSk.
  rewrite (preliminary_split_text_returns _ _ _ _ _ Hstep Hrun) in Hk, HSk.
  rewrite list_lookup_fmap in Hk, HSk.
  destruct (seq 0 (window_count text max_length overlap) !! k) as [i|] eqn:Hi;
    [|discriminate].
  destruct (seq 0 (window_count text max_length overlap) !! S k) as [j|] eqn:Hj;
    [|discriminate].
  apply lookup_seq in Hi as [-> _]. apply lookup_seq in Hj as [-> _].
  simpl in Hk, HSk. injection Hk as <-. injection HSk as <-.
  rewrite !nth_window_substring by assumption.
  rewrite !substring_substring. f_equal; lia.
Qed.

Lemma neighbouring_windows_share_the_overlap_witness :
  String.substring (Z.to_nat (4 - 1)) (Z.to_nat 1) "defg"
  = String.substring 0 (Z.to_nat 1) "ghij".
Proof.
  apply (neighbouring_windows_share_the_overlap "abcdefghij" 4 1 4
           ["abcd"; "defg"; "ghij"; "j"] 1 "defg" "ghij");
    first [reflexivity | discriminate].
Defined.

Lemma concat_of_windows (text : string) (width : nat) : forall (n k : nat),
  String.concat EmptyString
    ((fun i : nat => String.substring (i * width) width text) <$> seq k n)
  = String.substring (k * width) (n * width) text.
Proof.
  induction n as [|n IH]; intros k.
  - simpl. now rewrite substring_zero.
  - cbn [seq fmap list_fmap]. rewrite concat_empty_cons.
    change (list_fmap nat string (fun i : nat => String.substring (i * width) width text)
              (seq (S k) n))
      with ((fun i : nat => String.substring (i * width) width text) <$> seq (S k) n).
    rewrite IH.
    replace (S n * width)%nat with (width + n * width)%nat by lia.
    rewrite substring_split. do 2 f_equal. lia.
Qed.

(** X4. Without overlap the windows are a partition of the text: for
    [overlap = 0] and [0 < max_length], the windows that
    [preliminary_split_text] returns, put one after the other, are the
    text. *)
Theorem windows_without_overlap_rebuild_the_text :
  forall (text : string) (max_length : Z) (fuel : nat) (windows : list string),
    0 < max_length ->
    preliminary_split_text text max_length 0 fuel = Some windows ->
    String.concat EmptyString windows = text.
Proof.
  intros text max_length fuel windows Hpos Hrun.
  rewrite (preliminary_split_text_returns _ _ _ _ _ Hpos Hrun).
  assert (Hwin : nth_window text max_length 0
                   <$> seq 0 (window_count text max_length 0)
                 = (fun i : nat =>
                      String.substring (i * Z.to_nat max_length) (Z.to_nat max_length) text)
                     <$> seq 0 (window_count text max_length 0)).
  { apply list_fmap_ext. intros i k _.
    rewrite nth_window_substring by lia.
    now replace (max_length - 0) with max_length by lia. }
  rewrite Hwin, concat_of_windows. simpl Nat.mul.
  assert (Hreach : PyStr.len text
                   <= Z.of_nat (window_count text max_length 0) * (max_length - 0))
    by (apply window_count_reaches; lia).
  rewrite <- substring_clip.
  replace (Nat.min _ _) with (String.length text).
  - apply substring_all.
  - unfold PyStr.len in Hreach. nia.
Qed.

Lemma windows_without_overlap_rebuild_the_text_witness :
  String.concat EmptyString ["abcd"; "efgh"; "ij"] = "abcdefghij".
Proof.
  apply (windows_without_overlap_rebuild_the_text "abcdefghij" 4 3 ["abcd"; "efgh"; "ij"]).
  - reflexivity.
  - reflexivity.
Defined.

(** X5. The overflow check of [split_text_into_smaller_chunks] cannot
    fire for a tokenizer that never makes more tokens than there are
    characters: for [0 <= max_length], [overlap < max_length] and fuel
    for all windows, the call returns one chunk per window. *)
Theorem no_overflow_with_at_most_one_token_per_character :
  forall (tokenizer : Tokenizer) (text : string) (max_length overlap : Z) (fuel : nat),
    at_most_one_token_per_character tokenizer ->
    0 <= max_length -> overlap < max_length ->
    (window_count text max_length overlap <= fuel)%nat ->
    exists windows : list string,
      preliminary_split_text text max_length overlap fuel = Some windows /\
      split_text_into_smaller_chunks fuel text tokenizer max_length overlap
      = Returns (reconstitute tokenizer <$> windows).
Proof.
  intros tokenizer text max_length overlap fuel Htok Hpos Hstep Hfuel.
  eexists. split; [now apply preliminary_split_text_windows|].
  unfold split_text_into_smaller_chunks.
  rewrite preliminary_split_text_windows by assumption.
  rewrite tokenize_chunks_closed_form.
  replace (existsb _ _) with false; [reflexivity|].
  symmetry. apply not_true_is_false. intros Hex.
  apply existsb_overflow_Exists, List.Exists_exists in Hex.
  destruct Hex as (window & Hin & Hover).
  apply list_elem_of_In, list_elem_of_fmap in Hin. destruct Hin as (k & -> & _).
  specialize (Htok (nth_window text max_length overlap k)).
  unfold nth_window in Htok, Hover.
  assert (Hstart : 0 <= Z.of_nat k * (max_length - overlap)) by nia.
  set (start := Z.of_nat k * (max_length - overlap)) in *.
  rewrite slice_window in Htok, Hover by lia.
  unfold PyStr.len in Htok at 1. rewrite substring_length in Htok. lia.
Qed.

Lemma no_overflow_with_at_most_one_token_per_character_witness :
  exists windows : list string,
    preliminary_split_text "abcdefghij" 4 1 4 = Some windows /\
    split_text_into_smaller_chunks 4 "abcdefghij" char_tokenizer 4 1
    = Returns (reconstitute char_tokenizer <$> windows).
Proof.
  apply (no_overflow_with_at_most_one_token_per_character char_tokenizer
           "abcdefghij" 4 1 4).
  - intros s. unfold token_count, PyStr.len. simpl.
    induction s as [|c s IH]; simpl; lia.
  - discriminate.
  - reflexivity.
  - vm_compute. repeat constructor.
Defined.

(** ** More on the dataset writer *)

Section MoreWriterFacts.

Variable pdf_file_name : string.

(** The inner loop stops at the first two-element tuple that is not a
    pair of strings. *)
Lemma save_pairs_reject :
  forall (ok_items : list pyval) (question answer : pyval) (more : list pyval),
    pairs_are_strings ok_items ->
    is_str question && is_str answer = false ->
    forall (modified_qas : list QARecord) (w : world),
      save_pairs pdf_file_name (ok_items ++ PTuple [question; answer] :: more)
        modified_qas w
      = (Raises TypeError, logged (flat_map item_log ok_items) w).
Proof.
  induction ok_items as [|qa rest IH]; intros question answer more Hstr Hbad modified_qas w.
  - simpl. unfold bind, lift. rewrite logged_nil.
    destruct question; simpl in *; try reflexivity.
    destruct answer; simpl in *; try reflexivity. discriminate.
  - pose proof (pairs_are_strings_tail _ _ Hstr) as Hrest.
    assert (Hskip : forall w0,
               bind (print (InvalidQAFormat qa))
                 (fun _ => save_pairs pdf_file_name
                             (rest ++ PTuple [question; answer] :: more) modified_qas) w0
               = (Raises TypeError,
                  logged (Print (InvalidQAFormat qa) :: flat_map item_log rest) w0)).
    { intros w0. unfold bind. rewrite print_run, IH by assumption.
      now rewrite logged_logged. }
    destruct qa as [| | |items|items]; try apply Hskip.
    destruct items as [|q [|a [|extra items]]]; try apply Hskip.
    destruct (Hstr q a (or_introl eq_refl)) as (s & t & -> & ->).
    simpl. unfold bind, lift. simpl. now rewrite IH.
Qed.

(** The outer loop over entries that go through. *)
Lemma save_lists_prefix :
  forall (qas1 : list pyval) (itemss1 : list (list pyval)),
    Forall2 (fun qa_list qa_items => py_iter qa_list = Returns qa_items) qas1 itemss1 ->
    pairs_are_strings (concat itemss1) ->
    forall (qas2 : list pyval) (modified_qas : list QARecord) (w : world),
      save_lists pdf_file_name (qas1 ++ qas2) modified_qas w
      = save_lists pdf_file_name qas2
          (modified_qas ++ flat_map (item_records pdf_file_name) (concat itemss1))
          (logged (flat_map item_log (concat itemss1)) w).
Proof.
  intros qas1 itemss1 Hiter.
  induction Hiter as [|qa_list qa_items qas1 itemss1 Hhead Htail IH];
    intros Hstr qas2 modified_qas w.
  - simpl. now rewrite app_nil_r, logged_nil.
  - simpl in Hstr. apply pairs_are_strings_app in Hstr as [Hstr1 Hstr2].
    simpl. unfold bind, lift. rewrite Hhead.
    rewrite save_pairs_records by exact Hstr1.
    rewrite IH by exact Hstr2.
    rewrite !flat_map_app, logged_logged. now rewrite <- app_assoc.
Qed.

End MoreWriterFacts.

(** X6. An entry of [qas] that cannot be walked over ([None] or a
    number where a list is expected) makes [save_qas_to_json] raise
    [TypeError] when the loop reaches it: the records built from the
    entries before it are lost and no file is written. *)
Theorem entry_that_cannot_be_walked_aborts_the_writer :
  forall (qas1 : list pyval) (itemss1 : list (list pyval)) (bad : pyval)
         (rest : list pyval) (output_file pdf_file_path : string) (w : world),
    Forall2 (fun qa_list qa_items => py_iter qa_list = Returns qa_items) qas1 itemss1 ->
    pairs_are_strings (concat itemss1) ->
    py_iter bad = Raises TypeError ->
    save_qas_to_json (qas1 ++ bad :: rest) output_file pdf_file_path w
    = (Raises TypeError, logged (flat_map item_log (concat itemss1)) w).
Proof.
  intros qas1 itemss1 bad rest output_file pdf_file_path w Hiter Hstr Hbad.
  unfold save_qas_to_json, bind at 1.
  rewrite (save_lists_prefix _ _ _ Hiter Hstr).
  simpl. unfold bind, lift. now rewrite Hbad.
Qed.

Lemma entry_that_cannot_be_walked_aborts_the_writer_witness :
  save_qas_to_json
    ([PList [PTuple [PStr "Q1"; PStr "A1"]; PStr "stray"]]
       ++ PNone :: [PList [PTuple [PStr "Q2"; PStr "A2"]]])
    "qa_dataset.json" "doc1.pdf" empty_world
  = (Raises TypeError, logged [Print (InvalidQAFormat (PStr "stray"))] empty_world).
Proof.
  apply (entry_that_cannot_be_walked_aborts_the_writer
           [PList [PTuple [PStr "Q1"; PStr "A1"]; PStr "stray"]]
           [[PTuple [PStr "Q1"; PStr "A1"]; PStr "stray"]]).
  - repeat constructor.
  - intros q a Hin. simpl in Hin.
    destruct Hin as [H|[H|[]]]; inversion H; eauto.
  - reflexivity.
Defined.

(** X7. A two-element tuple with a component that is not a string
    passes the shape check of [save_qas_to_json] and then makes it
    raise [TypeError] at the concatenation with the label: the records
    built so far are lost and no file is written. *)
Theorem pair_with_a_non_string_aborts_the_writer :
  forall (qas1 : list pyval) (itemss1 : list (list pyval)) (bad : pyval)
         (ok_items : list pyval) (question answer : pyval) (more rest : list pyval)
         (output_file pdf_file_path : string) (w : world),
    Forall2 (fun qa_list qa_items => py_iter qa_list = Returns qa_items) qas1 itemss1 ->
    pairs_are_strings (concat itemss1) ->
    py_iter bad = Returns (ok_items ++ PTuple [question; answer] :: more) ->
    pairs_are_strings ok_items ->
    is_str question && is_str answer = false ->
    save_qas_to_json (qas1 ++ bad :: rest) output_file pdf_file_path w
    = (Raises TypeError,
       logged (flat_map item_log (concat itemss1) ++ flat_map item_log ok_items) w).
Proof.
  intros qas1 itemss1 bad ok_items question answer more rest output_file pdf_file_path w
    Hiter Hstr Hbad Hok Hpair.
  unfold save_qas_to_json, bind at 1.
  rewrite (save_lists_prefix _ _ _ Hiter Hstr).
  simpl. unfold bind at 1, lift. rewrite Hbad. unfold bind at 1.
  rewrite save_pairs_reject by assumption.
  now rewrite logged_logged.
Qed.

Lemma pair_with_a_non_string_aborts_the_writer_witness :
  save_qas_to_json
    ([PList [PTuple [PStr "Q1"; PStr "A1"]]]
       ++ PList ([PStr "stray"] ++ PTuple [PStr "Q2"; PNone] :: [PTuple [PStr "Q3"; PStr "A3"]])
       :: [])
    "qa_dataset.json" "doc1.pdf" empty_world
  = (Raises TypeError, logged ([] ++ [Print (InvalidQAFormat (PStr "stray"))]) empty_world).
Proof.
  apply (pair_with_a_non_string_aborts_the_writer
           [PList [PTuple [PStr "Q1"; PStr "A1"]]] [[PTuple [PStr "Q1"; PStr "A1"]]]
           (PList ([PStr "stray"] ++ PTuple [PStr "Q2"; PNone]
                     :: [PTuple [PStr "Q3"; PStr "A3"]]))
           [PStr "stray"] (PStr "Q2") PNone [PTuple [PStr "Q3"; PStr "A3"]]).
  - repeat constructor.
  - intros q a Hin. simpl in Hin. destruct Hin as [H|[]]; inversion H; eauto.
  - reflexivity.
  - intros q a Hin. simpl in Hin. destruct Hin as [H|[]]; inversion H.
  - reflexivity.
Defined.

(** ** More on the QA generator *)

Section MoreGeneratorFacts.

Variable model : QGModel.

Lemma tolerated_no_answer (part : string) (e : exn) :
  generate_qa model [part] = Raises e -> is_AnswerNotFoundError e = true ->
  tolerated (generate_qa model [part]).
Proof. intros -> He. exact He. Qed.

(** The loop over the texts, when the chunker raises on one of them. *)
Lemma generate_texts_chunker_raises (fuel : nat) (tokenizer : Tokenizer) :
  forall (good : list string) (partss : list (list string)),
    Forall2 (fun text parts =>
               split_text_into_smaller_chunks fuel text tokenizer
                 default_max_length default_overlap = Returns parts)
      good partss ->
    Forall (fun part => tolerated (generate_qa model [part])) (concat partss) ->
    forall (bad : string) (rest : list string) (e : exn),
      split_text_into_smaller_chunks fuel bad tokenizer
        default_max_length default_overlap = Raises e ->
      forall (qas : list pyval) (w : world),
        generate_texts model fuel (good ++ bad :: rest) tokenizer qas w
        = (Raises e, logged (flat_map (part_log model) (concat partss)) w).
Proof.
  intros good partss Hsplit.
  induction Hsplit as [|text parts good partss Hhead Htail IH];
    intros Hall bad rest e Hbad qas w.
  - simpl. unfold bind, lift. rewrite Hbad. now rewrite logged_nil.
  - simpl in Hall. apply Forall_app in Hall as [Hall1 Hall2].
    simpl. unfold bind at 1, lift. rewrite Hhead. unfold bind at 1.
    rewrite generate_parts_tolerated by exact Hall1.
    rewrite (IH Hall2 bad rest e Hbad).
    now rewrite flat_map_app, logged_logged.
Qed.

End MoreGeneratorFacts.

(** X8. A document in none of whose parts the model finds an answer
    still reaches the writer: [generate_qas] returns, and
    [qa_dataset.json] is replaced by the empty array, so that what an
    earlier document has left there is gone. *)
Theorem document_without_answers_empties_the_dataset :
  forall (model : QGModel) (fuel : nat) (texts : list string) (tokenizer : Tokenizer)
         (pdf_file_path : string) (partss : list (list string)) (w : world),
    Forall2 (fun text parts =>
               split_text_into_smaller_chunks fuel text tokenizer
                 default_max_length default_overlap = Returns parts)
      texts partss ->
    Forall (fun part => exists e, generate_qa model [part] = Raises e /\
                                  is_AnswerNotFoundError e = true)
      (concat partss) ->
    generate_qas model fuel texts tokenizer pdf_file_path w
    = (Returns tt,
       stored "qa_dataset.json" "[]"
         (logged (flat_map (part_log model) (concat partss)) w)).
Proof.
  intros model fuel texts tokenizer pdf_file_path partss w Hsplit Hnone.
  unfold generate_qas, bind at 1.
  rewrite (generate_texts_parts model fuel tokenizer texts partss Hsplit).
  rewrite generate_parts_tolerated.
  - replace (flat_map (part_pairs model) (concat partss)) with (@nil pyval);
      [reflexivity|].
    induction (concat partss) as [|part parts IH]; [reflexivity|].
    apply Forall_cons in Hnone as [(e & He & _) Hrest].
    simpl. unfold part_pairs at 1. rewrite He. now apply IH.
  - eapply Forall_impl; [exact Hnone|].
    intros part (e & He & Hanf). now apply (tolerated_no_answer model part e).
Qed.

Lemma document_without_answers_empties_the_dataset_witness :
  generate_qas sample_model 1 ["?"; "? Who knows"] char_tokenizer "docs\b.pdf"
    (stored "qa_dataset.json" "[ earlier records ]" empty_world)
  = (Returns tt,
     stored "qa_dataset.json" "[]"
       (logged [Print (SkippingPart no_answer); Print (SkippingPart no_answer)]
          (stored "qa_dataset.json" "[ earlier records ]" empty_world))).
Proof.
  apply (document_without_answers_empties_the_dataset sample_model 1
           ["?"; "? Who knows"] char_tokenizer "docs\b.pdf" [["?"]; ["? Who knows"]]).
  - repeat constructor.
  - repeat constructor; exists no_answer; split; reflexivity.
Defined.

(** X9. When the chunker raises on one of the texts, [generate_qas]
    raises the same exception: the model has already been run on the
    parts of the texts before it, but their pairs are dropped and no
    file is written. *)
Theorem chunker_error_discards_the_collected_pairs :
  forall (model : QGModel) (fuel : nat) (good : list string) (bad : string)
         (rest : list string) (tokenizer : Tokenizer) (pdf_file_path : string)
         (partss : list (list string)) (e : exn) (w : world),
    Forall2 (fun text parts =>
               split_text_into_smaller_chunks fuel text tokenizer
                 default_max_length default_overlap = Returns parts)
      good partss ->
    Forall (fun part => tolerated (generate_qa model [part])) (concat partss) ->
    split_text_into_smaller_chunks fuel bad tokenizer
      default_max_length default_overlap = Raises e ->
    generate_qas model fuel (good ++ bad :: rest) tokenizer pdf_file_path w
    = (Raises e, logged (flat_map (part_log model) (concat partss)) w).
Proof.
  intros model fuel good bad rest tokenizer pdf_file_path partss e w Hsplit Hall Hbad.
  unfold generate_qas, bind.
  now rewrite (generate_texts_chunker_raises model fuel tokenizer good partss
                 Hsplit Hall bad rest e Hbad).
Qed.

Lemma chunker_error_discards_the_collected_pairs_witness :
  generate_qas sample_model 2 (["Water boils."; "?"] ++ text_of_400 :: ["Ice melts."])
    nibble_tokenizer "docs\a.pdf" empty_world
  = (Raises token_overflow, logged [Print (SkippingPart no_answer)] empty_world).
Proof.
  apply (chunker_error_discards_the_collected_pairs sample_model 2
           ["Water boils."; "?"] text_of_400 ["Ice melts."] nibble_tokenizer
           "docs\a.pdf" [["Water boils."]; ["?"]] token_overflow).
  - repeat constructor.
  - repeat constructor.
  - vm_compute. reflexivity.
Defined.

(** ** More on paths *)

Section MorePathFacts.









End MorePathFacts.





(** ** What a computation adds to the trace *)

Section TraceFacts.

Variable P : event -> Prop.

Lemma appends_ret {A} (a : A) : appends P (ret a).
Proof. intros w. exists []. simpl. now rewrite app_nil_r. Qed.

Lemma appends_raise {A} (e : exn) : appends P (@raise A e).
Proof. intros w. exists []. simpl. now rewrite app_nil_r. Qed.

Lemma appends_lift {A} (o : outcome A) : appends P (lift o).
Proof. intros w. exists []. simpl. now rewrite app_nil_r. Qed.

Lemma appends_emit (ev : event) : P ev -> appends P (emit ev).
Proof. intros Hev w. exists [ev]. simpl. split; [reflexivity | now constructor]. Qed.

Lemma appends_print (m : message) : P (Print m) -> appends P (print m).
Proof. apply appends_emit. Qed.

Lemma appends_write_file (name content : string) : appends P (write_file name content).
Proof. intros w. exists []. simpl. now rewrite app_nil_r. Qed.

Lemma appends_bind {A B} (c : M A) (k : A -> M B) :
  appends P c -> (forall a, appends P (k a)) -> appends P (bind c k).
Proof.
  intros Hc Hk w. unfold bind. destruct (Hc w) as (evs & Htrace & Hevs).
  destruct (c w) as [[a|e|] w1]; simpl in Htrace.
  - destruct (Hk a w1) as (evs' & Htrace' & Hevs').
    exists (evs ++ evs'). rewrite Htrace', Htrace, app_assoc.
    split; [reflexivity | now apply Forall_app].
  - now exists evs.
  - now exists evs.
Qed.

End TraceFacts.

Lemma appends_weaken (P Q : event -> Prop) {A} (c : M A) :
  (forall ev, P ev -> Q ev) -> appends P c -> appends Q c.
Proof.
  intros HPQ Hc w. destruct (Hc w) as (evs & Htrace & Hevs).
  exists evs. split; [exact Htrace | now apply (Forall_impl P)].
Qed.

Create HintDb traces.

#[local] Hint Resolve appends_ret appends_raise appends_lift appends_emit
  appends_print appends_write_file appends_bind : traces.
#[local] Hint Extern 1 (is_diagnostic _) => exact I : traces.
#[local] Hint Extern 1 (is_print _) => exact I : traces.

Section DiagnosticsOnly.

Lemma save_pairs_appends (pdf_file_name : string) :
  forall (qa_items : list pyval) (modified_qas : list QARecord),
    appends is_diagnostic (save_pairs pdf_file_name qa_items modified_qas).
Proof.
  induction qa_items as [|qa rest IH]; intros modified_qas; simpl.
  - auto with traces.
  - destruct qa as [| | |items|items]; auto with traces.
    destruct items as [|question [|answer [|extra items]]]; auto 6 with traces.
Qed.

Lemma save_lists_appends (pdf_file_name : string) :
  forall (qas : list pyval) (modified_qas : list QARecord),
    appends is_diagnostic (save_lists pdf_file_name qas modified_qas).
Proof.
  induction qas as [|qa_list rest IH]; intros modified_qas; simpl.
  - auto with traces.
  - apply appends_bind; [auto with traces|]. intros qa_items.
    apply appends_bind; [apply save_pairs_appends | auto].
Qed.

Lemma save_qas_to_json_appends (qas : list pyval) (output_file pdf_file_path : string) :
  appends is_diagnostic (save_qas_to_json qas output_file pdf_file_path).
Proof.
  unfold save_qas_to_json.
  apply appends_bind; [apply save_lists_appends | auto with traces].
Qed.

Variable model : QGModel.

Lemma generate_parts_appends :
  forall (parts : list string) (qas : list pyval),
    appends is_diagnostic (generate_parts model parts qas).
Proof.
  induction parts as [|part rest IH]; intros qas; simpl.
  - auto with traces.
  - destruct (generate_qa model [part]) as [qa_part|e|]; auto with traces.
    destruct (is_AnswerNotFoundError e); auto with traces.
Qed.

Lemma generate_texts_appends (fuel : nat) (tokenizer : Tokenizer) :
  forall (texts : list string) (qas : list pyval),
    appends is_diagnostic (generate_texts model fuel texts tokenizer qas).
Proof.
  induction texts as [|text rest IH]; intros qas; simpl.
  - auto with traces.
  - apply appends_bind; [auto with traces|]. intros parts.
    apply appends_bind; [apply generate_parts_appends | auto].
Qed.

(** The generator and the writer print diagnostics and nothing else. *)
Lemma generate_qas_appends (fuel : nat) (texts : list string) (tokenizer : Tokenizer)
    (pdf_file_path : string) :
  appends is_diagnostic (generate_qas model fuel texts tokenizer pdf_file_path).
Proof.
  unfold generate_qas. apply appends_bind; [apply generate_texts_appends|].
  intros qas. apply save_qas_to_json_appends.
Qed.

End DiagnosticsOnly.

Lemma saved_documents_app (evs1 evs2 : list event) :
  saved_documents (evs1 ++ evs2) = saved_documents evs1 ++ saved_documents evs2.
Proof. apply flat_map_app. Qed.

Lemma saved_documents_diagnostics (evs : list event) :
  Forall is_diagnostic evs -> saved_documents evs = [].
Proof.
  induction 1 as [|ev evs Hev Hevs IH]; [reflexivity|].
  simpl. rewrite IH. destruct ev as [[]| |]; simpl in *; now try contradiction.
Qed.

Lemma is_diagnostic_is_print (ev : event) : is_diagnostic ev -> is_print ev.
Proof. destruct ev; simpl; [trivial | contradiction | contradiction]. Qed.

(** ** More on the files a run works on *)

Lemma remaining_pdfs_nothing (max_files : Z) (done : nat) (listing : list string) :
  max_files < 0 \/ no_pdf listing ->
  remaining_pdfs max_files done listing = [].
Proof.
  intros [Hneg|Hnone]; unfold remaining_pdfs.
  - replace (max_files =? 0) with false by (symmetry; apply Z.eqb_neq; lia).
    now replace (Z.to_nat (max_files - Z.of_nat done)) with 0%nat by lia.
  - assert (Hfilter : List.filter (fun filename => PyStr.endswith filename ".pdf") listing
                      = []).
    { induction Hnone as [|filename listing Hhead Htail IH]; [reflexivity|].
      simpl. now rewrite Hhead. }
    rewrite Hfilter. destruct (max_files =? 0); [reflexivity | apply firstn_nil].
Qed.

(** ** More on the extractor and the driver *)

Section MoreDriverFacts.

Variable model : QGModel.
Variable host : Host.
Variables (fuel : nat) (folder_path output_file : string) (max_files : Z).

Lemma extract_loop_raises (bad : string) (rest : list string) (e : exn) :
  fitz_open host (ntpath.join folder_path bad) = Raises e ->
  forall (listing texts : list string) (done : nat) (good : list string),
    remaining_pdfs max_files done listing = good ++ bad :: rest ->
    (forall filename, In filename good ->
       exists doc, fitz_open host (ntpath.join folder_path filename) = Returns doc) ->
    extract_loop host folder_path max_files listing texts (Z.of_nat done) = Raises e.
Proof.
  intros Hbad. induction listing as [|filename listing IH];
    intros texts done good Hsel Hgood.
  - rewrite remaining_pdfs_nil in Hsel. now destruct good.
  - simpl. destruct (PyStr.endswith filename ".pdf") eqn:Hpdf.
    + destruct (negb (max_files =? 0) && (Z.of_nat done >=? max_files)) eqn:Hcap.
      * rewrite remaining_pdfs_capped in Hsel by exact Hcap. now destruct good.
      * rewrite remaining_pdfs_take in Hsel by assumption.
        destruct good as [|g good]; simpl in Hsel; injection Hsel as <- Hsel.
        -- now rewrite Hbad.
        -- destruct (Hgood filename (or_introl eq_refl)) as (doc & ->).
           replace (Z.of_nat done + 1) with (Z.of_nat (S done)) by lia.
           apply (IH _ _ good Hsel). intros f Hf. apply Hgood. now right.
    + rewrite remaining_pdfs_skip in Hsel by exact Hpdf. now apply (IH _ _ good).
Qed.

Lemma main_loop_nothing :
  forall (listing texts : list string) (w : world),
    remaining_pdfs max_files (length texts) listing = [] ->
    main_loop model host fuel folder_path output_file max_files listing texts w
    = (Returns tt, w).
Proof.
  induction listing as [|filename listing IH]; intros texts w Hsel; [reflexivity|].
  simpl. destruct (PyStr.endswith filename ".pdf") eqn:Hpdf.
  - destruct (negb (max_files =? 0) && (Z.of_nat (length texts) >=? max_files)) eqn:Hcap;
      [reflexivity|].
    rewrite remaining_pdfs_take in Hsel by assumption. discriminate.
  - rewrite remaining_pdfs_skip in Hsel by exact Hpdf. now apply IH.
Qed.

(** The console of a run of the loop that returns: one line per
    document worked on, between the diagnostics. *)
Lemma main_loop_saved :
  forall (listing texts : list string) (w w' : world),
    main_loop model host fuel folder_path output_file max_files listing texts w
    = (Returns tt, w') ->
    exists evs : list event,
      trace w' = trace w ++ evs /\
      saved_documents evs
      = map (fun filename => (filename, output_file))
          (remaining_pdfs max_files (length texts) listing).
Proof.
  induction listing as [|filename listing IH]; intros texts w w' Hrun; simpl in Hrun.
  - injection Hrun as <-. exists []. rewrite remaining_pdfs_nil, app_nil_r. now split.
  - destruct (PyStr.endswith filename ".pdf") eqn:Hpdf.
    + destruct (negb (max_files =? 0) && (Z.of_nat (length texts) >=? max_files))
        eqn:Hcap.
      * injection Hrun as <-. exists [].
        rewrite remaining_pdfs_capped, app_nil_r by exact Hcap. now split.
      * rewrite remaining_pdfs_take by assumption.
        unfold bind at 1, lift in Hrun.
        destruct (fitz_open host (ntpath.join folder_path filename))
          as [doc|e|]; try discriminate Hrun.
        unfold bind at 1 in Hrun.
        destruct (generate_qas_appends model fuel [document_text doc] (tokenizer model)
                    (ntpath.join folder_path filename) w) as (evs1 & Htrace1 & Hdiag).
        destruct (generate_qas model fuel [document_text doc] (tokenizer model)
                    (ntpath.join folder_path filename) w) as [[[]|e|] w1];
          try discriminate Hrun.
        unfold bind at 1 in Hrun. rewrite print_run in Hrun.
        apply IH in Hrun. destruct Hrun as (evs2 & Htrace2 & Hsaved2).
        rewrite length_app, Nat.add_1_r in Hsaved2. simpl in Htrace1, Htrace2.
        exists (evs1 ++ [Print (DatasetSaved filename output_file)] ++ evs2). split.
        -- rewrite Htrace2, Htrace1. now rewrite <- !app_assoc.
        -- rewrite !saved_documents_app, saved_documents_diagnostics by exact Hdiag.
           simpl. now rewrite Hsaved2.
    + rewrite remaining_pdfs_skip by exact Hpdf. now apply IH.
Qed.

(** The loop of the driver prints and does nothing else to the trace. *)
Lemma main_loop_appends :
  forall (listing texts : list string),
    appends is_print
      (main_loop model host fuel folder_path output_file max_files listing texts).
Proof.
  induction listing as [|filename listing IH]; intros texts; simpl.
  - auto with traces.
  - destruct (PyStr.endswith filename ".pdf"); [|apply IH].
    destruct (negb (max_files =? 0) && (Z.of_nat (length texts) >=? max_files));
      [auto with traces|].
    apply appends_bind; [auto with traces|]. intros doc.
    apply appends_bind.
    + apply (appends_weaken is_diagnostic); [apply is_diagnostic_is_print|].
      apply generate_qas_appends.
    + intros _. apply appends_bind; [auto with traces | intros _; apply IH].
Qed.

(** The loop of the driver leaves every file but [qa_dataset.json] as
    it was, however it ends. *)
Lemma main_loop_other_files :
  forall (listing texts : list string) (w : world) (name : string),
    name <> "qa_dataset.json" ->
    files (snd (main_loop model host fuel folder_path output_file max_files
                  listing texts w)) !! name
    = files w !! name.
Proof.
  induction listing as [|filename listing IH]; intros texts w name Hname; simpl.
  - reflexivity.
  - destruct (PyStr.endswith filename ".pdf"); [|now apply IH].
    destruct (negb (max_files =? 0) && (Z.of_nat (length texts) >=? max_files));
      [reflexivity|].
    unfold bind at 1, lift.
    destruct (fitz_open host (ntpath.join folder_path filename)) as [doc|e|];
      try reflexivity.
    unfold bind at 1.
    destruct (generate_qas_shape model fuel [document_text doc] (tokenizer model)
                (ntpath.join folder_path filename))
      as [(content & evs & Hgen)|(o & evs & Hno & Hgen)]; rewrite Hgen.
    + unfold bind at 1. rewrite print_run, IH by exact Hname.
      simpl. now apply lookup_insert_ne.
    + destruct o as [[]|e|]; [contradiction | reflexivity | reflexivity].
Qed.

End MoreDriverFacts.

(** X11. A PDF file that cannot be parsed makes
    [extract_text_from_pdfs] raise what the parser raises: the texts of
    the files before it are not returned, and the files after it are
    not opened. *)
Theorem extract_raises_what_the_parser_raises :
  forall (host : Host) (folder_path : string) (max_files : Z)
         (listing good : list string) (bad : string) (rest : list string) (e : exn),
    listdir host folder_path = Returns listing ->
    selected_pdfs max_files listing = good ++ bad :: rest ->
    (forall filename, In filename good ->
       exists doc, fitz_open host (ntpath.join folder_path filename) = Returns doc) ->
    fitz_open host (ntpath.join folder_path bad) = Raises e ->
    extract_text_from_pdfs host folder_path max_files = Raises e.
Proof.
  intros host folder_path max_files listing good bad rest e Hlist Hsel Hgood Hbad.
  unfold extract_text_from_pdfs. rewrite Hlist.
  rewrite selected_pdfs_remaining in Hsel.
  change (extract_loop host folder_path max_files listing [] 0)
    with (extract_loop host folder_path max_files listing [] (Z.of_nat 0)).
  exact (extract_loop_raises host folder_path max_files bad rest e Hbad
           listing [] 0%nat good Hsel Hgood).
Qed.

Lemma extract_raises_what_the_parser_raises_witness :
  extract_text_from_pdfs broken_host "docs" 0 = Raises broken_document.
Proof.
  apply (extract_raises_what_the_parser_raises broken_host "docs" 0
           ["a.pdf"; "notes.txt"; "b.pdf"] ["a.pdf"] "b.pdf" []).
  - reflexivity.
  - reflexivity.
  - intros filename [<-|[]]. now exists ["Alpha "; "one."].
  - reflexivity.
Defined.

(** X12. A negative [max_files] is no "no limit": like a folder
    without PDF entries, it selects nothing. The extractor then returns
    the empty list without opening a file, and the driver goes straight
    to the end-of-run dialog, without a call of the model and without
    writing a file. *)
Theorem nothing_selected_nothing_done :
  forall (model : QGModel) (host : Host) (fuel : nat) (folder_path output_file : string)
         (max_files : Z) (listing : list string) (w : world),
    listdir host folder_path = Returns listing ->
    max_files < 0 \/ no_pdf listing ->
    extract_text_from_pdfs host folder_path max_files = Returns [] /\
    main model host fuel folder_path output_file max_files w = on_completion host w.
Proof.
  intros model host fuel folder_path output_file max_files listing w Hlist Hnone.
  split.
  - unfold extract_text_from_pdfs. rewrite Hlist.
    change (extract_loop host folder_path max_files listing [] 0)
      with (extract_loop host folder_path max_files listing [] (Z.of_nat 0)).
    rewrite (extract_loop_selected host folder_path max_files (fun _ => [])).
    + now rewrite remaining_pdfs_nothing.
    + rewrite remaining_pdfs_nothing by exact Hnone. intros filename [].
  - unfold main. unfold bind at 1, lift. rewrite Hlist. unfold bind.
    rewrite main_loop_nothing; [reflexivity|].
    now apply remaining_pdfs_nothing.
Qed.

Lemma nothing_selected_nothing_done_witness :
  extract_text_from_pdfs sample_host "docs" (-1) = Returns [] /\
  main sample_model sample_host 1 "docs" "qa_dataset.json" (-1) empty_world
  = on_completion sample_host empty_world.
Proof.
  apply (nothing_selected_nothing_done sample_model sample_host 1 "docs"
           "qa_dataset.json" (-1) ["a.pdf"; "notes.txt"; "b.pdf"] empty_world).
  - reflexivity.
  - left. reflexivity.
Defined.

(** X13. A run of the driver that returns has printed exactly one
    "saved" line per selected PDF file, in listing order; each line
    names the [output_file] argument of [main]. *)
Theorem console_reports_each_selected_pdf_once :
  forall (model : QGModel) (host : Host) (fuel : nat) (folder_path output_file : string)
         (max_files : Z) (listing : list string) (w w' : world),
    listdir host folder_path = Returns listing ->
    main model host fuel folder_path output_file max_files w = (Returns tt, w') ->
    exists evs : list event,
      trace w' = trace w ++ evs /\
      saved_documents evs
      = map (fun filename => (filename, output_file)) (selected_pdfs max_files listing).
Proof.
  intros model host fuel folder_path output_file max_files listing w w' Hlist Hrun.
  unfold main in Hrun. unfold bind at 1, lift in Hrun. rewrite Hlist in Hrun.
  unfold bind at 1 in Hrun.
  destruct (main_loop model host fuel folder_path output_file max_files listing [] w)
    as [[[]|e|] w1] eqn:Hloop; try discriminate Hrun.
  apply main_loop_saved in Hloop. destruct Hloop as (evs1 & Htrace1 & Hsaved).
  simpl length in Hsaved. rewrite <- selected_pdfs_remaining in Hsaved.
  unfold on_completion in Hrun.
  destruct (message_box host =? 2).
  - rewrite print_run in Hrun. injection Hrun as <-.
    exists (evs1 ++ [Print SleepCancelled]). simpl. rewrite Htrace1, <- app_assoc.
    split; [reflexivity|]. rewrite saved_documents_app. simpl.
    now rewrite app_nil_r.
  - unfold bind, print, emit in Hrun. simpl in Hrun. injection Hrun as <-. simpl.
    exists (evs1 ++ [Print PuttingToSleep; Sleep 20;
                     System "rundll32.exe powrprof.dll,SetSuspendState 0,1,0"]).
    rewrite Htrace1, <- !app_assoc. split; [reflexivity|].
    rewrite saved_documents_app. simpl. now rewrite app_nil_r.
Qed.

Lemma console_reports_each_selected_pdf_once_witness :
  exists evs : list event,
    trace (snd (main sample_model sample_host 1 "docs" "other.json" 0 empty_world))
    = trace empty_world ++ evs /\
    saved_documents evs
    = map (fun filename => (filename, "other.json"))
        (selected_pdfs 0 ["a.pdf"; "notes.txt"; "b.pdf"]).
Proof.
  apply (console_reports_each_selected_pdf_once sample_model sample_host 1 "docs"
           "other.json" 0 ["a.pdf"; "notes.txt"; "b.pdf"] empty_world).
  - reflexivity.
  - vm_compute. reflexivity.
Defined.

(** X14. The machine is put to sleep only at the end of a run that
    got through all its documents, and only if the user did not press
    Cancel: then the run ends with the announcement, the wait of 20
    seconds and the suspend command. In every other case (the run
    raised, or Cancel was pressed) the run has printed lines and done
    nothing else. *)
Theorem suspend_only_after_a_complete_run :
  forall (model : QGModel) (host : Host) (fuel : nat) (folder_path output_file : string)
         (max_files : Z) (w w' : world) (o : outcome unit),
    main model host fuel folder_path output_file max_files w = (o, w') ->
    exists evs : list event,
      trace w' = trace w ++ evs /\
      (o = Returns tt -> message_box host <> 2 ->
       exists before : list event,
         evs = before ++ [Print PuttingToSleep; Sleep 20;
                          System "rundll32.exe powrprof.dll,SetSuspendState 0,1,0"] /\
         Forall is_print before) /\
      (o <> Returns tt \/ message_box host = 2 -> Forall is_print evs).
Proof.
  intros model host fuel folder_path output_file max_files w w' o Hrun.
  unfold main in Hrun. unfold bind at 1, lift in Hrun.
  destruct (listdir host folder_path) as [listing|e|].
  - unfold bind at 1 in Hrun.
    destruct (main_loop_appends model host fuel folder_path output_file max_files
                listing [] w) as (evs1 & Htrace1 & Hprints).
    destruct (main_loop model host fuel folder_path output_file max_files listing [] w)
      as [[[]|e|] w1]; simpl in Htrace1.
    + unfold on_completion in Hrun. destruct (message_box host =? 2) eqn:Hbox.
      * rewrite print_run in Hrun. injection Hrun as <- <-.
        exists (evs1 ++ [Print SleepCancelled]). simpl. rewrite Htrace1, <- app_assoc.
        split; [reflexivity|]. split.
        -- intros _ Hno. apply Z.eqb_eq in Hbox. contradiction.
        -- intros _. apply Forall_app. split; [exact Hprints|]. now repeat constructor.
      * unfold bind, print, emit in Hrun. simpl in Hrun. injection Hrun as <- <-. simpl.
        exists (evs1 ++ [Print PuttingToSleep; Sleep 20;
                         System "rundll32.exe powrprof.dll,SetSuspendState 0,1,0"]).
        rewrite Htrace1, <- !app_assoc. split; [reflexivity|]. split.
        -- intros _ _. now exists evs1.
        -- intros [Ho|Hcancel]; [contradiction|].
           apply Z.eqb_neq in Hbox. contradiction.
    + injection Hrun as <- <-. exists evs1. split; [exact Htrace1|]. split.
      * discriminate.
      * intros _. exact Hprints.
    + injection Hrun as <- <-. exists evs1. split; [exact Htrace1|]. split.
      * discriminate.
      * intros _. exact Hprints.
  - injection Hrun as <- <-. exists []. rewrite app_nil_r. split; [reflexivity|].
    split; [discriminate | intros _; constructor].
  - injection Hrun as <- <-. exists []. rewrite app_nil_r. split; [reflexivity|].
    split; [discriminate | intros _; constructor].
Qed.

Lemma suspend_only_after_a_complete_run_witness :
  (exists evs : list event,
     trace (snd (main sample_model broken_host 1 "docs" "qa_dataset.json" 1 empty_world))
     = trace empty_world ++ evs /\
     (Returns tt = Returns tt -> message_box broken_host <> 2 ->
      exists before : list event,
        evs = before ++ [Print PuttingToSleep; Sleep 20;
                         System "rundll32.exe powrprof.dll,SetSuspendState 0,1,0"] /\
        Forall is_print before) /\
     (Returns tt <> Returns tt \/ message_box broken_host = 2 -> Forall is_print evs)) /\
  (exists evs : list event,
     trace (snd (main sample_model broken_host 1 "docs" "qa_dataset.json" 0 empty_world))
     = trace empty_world ++ evs /\
     (Raises broken_document = Returns tt -> message_box broken_host <> 2 ->
      exists before : list event,
        evs = before ++ [Print PuttingToSleep; Sleep 20;
                         System "rundll32.exe powrprof.dll,SetSuspendState 0,1,0"] /\
        Forall is_print before) /\
     (Raises broken_document <> Returns tt \/ message_box broken_host = 2 ->
      Forall is_print evs)).
Proof.
  split.
  - apply (suspend_only_after_a_complete_run sample_model broken_host 1 "docs"
             "qa_dataset.json" 1 empty_world).
    vm_compute. reflexivity.
  - apply (suspend_only_after_a_complete_run sample_model broken_host 1 "docs"
             "qa_dataset.json" 0 empty_world).
    vm_compute. reflexivity.
Defined.

(** X15. Whatever [output_file] the driver is called with and however
    the run ends, [main] changes no file other than [qa_dataset.json]:
    the name is fixed in [generate_qas], and the [output_file] argument
    only appears in the console line. *)
Theorem main_writes_no_file_but_qa_dataset_json :
  forall (model : QGModel) (host : Host) (fuel : nat) (folder_path output_file : string)
         (max_files : Z) (w : world) (name : string),
    name <> "qa_dataset.json" ->
    files (snd (main model host fuel folder_path output_file max_files w)) !! name
    = files w !! name.
Proof.
  intros model host fuel folder_path output_file max_files w name Hname.
  unfold main. unfold bind at 1, lift.
  destruct (listdir host folder_path) as [listing|e|]; try reflexivity.
  unfold bind.
  pose proof (main_loop_other_files model host fuel folder_path output_file max_files
                listing [] w name Hname) as Hloop.
  destruct (main_loop model host fuel folder_path output_file max_files listing [] w)
    as [[[]|e|] w1]; simpl in Hloop; try exact Hloop.
  destruct (on_completion_keeps_files host w1) as (evs & ->). exact Hloop.
Qed.

Lemma main_writes_no_file_but_qa_dataset_json_witness :
  files (snd (main sample_model sample_host 1 "docs" "other.json" 0 empty_world))
    !! "other.json"
  = files empty_world !! "other.json".
Proof.
  apply (main_writes_no_file_but_qa_dataset_json sample_model sample_host 1 "docs"
           "other.json" 0 empty_world "other.json").
  discriminate.
Defined.

Section DriverAborts.

Variable model : QGModel.
Variable host : Host.
Variables (fuel : nat) (folder_path output_file : string) (max_files : Z).
Variables (bad : string) (rest : list string) (e : exn).

Hypothesis bad_raises : fitz_open host (ntpath.join folder_path bad) = Raises e.

Lemma main_loop_raises :
  forall (listing texts good : list string) (w : world),
    remaining_pdfs max_files (length texts) listing = good ++ bad :: rest ->
    (forall filename, In filename good ->
       exists doc,
         fitz_open host (ntpath.join folder_path filename) = Returns doc /\
         forall v, fst (generate_qas model fuel [document_text doc] (tokenizer model)
                          (ntpath.join folder_path filename) v) = Returns tt) ->
    exists (w' : world) (evs : list event),
      main_loop model host fuel folder_path output_file max_files listing texts w
      = (Raises e, w') /\
      trace w' = trace w ++ evs /\
      saved_documents evs = map (fun filename => (filename, output_file)) good.
Proof.
  induction listing as [|filename listing IH]; intros texts good w Hsel Hgood.
  - rewrite remaining_pdfs_nil in Hsel. now destruct good.
  - simpl. destruct (PyStr.endswith filename ".pdf") eqn:Hpdf.
    + destruct (negb (max_files =? 0) && (Z.of_nat (length texts) >=? max_files))
        eqn:Hcap.
      * rewrite remaining_pdfs_capped in Hsel by exact Hcap. now destruct good.
      * rewrite remaining_pdfs_take in Hsel by assumption.
        destruct good as [|g good]; simpl in Hsel; injection Hsel as <- Hsel.
        -- exists w, []. unfold bind, lift. rewrite bad_raises.
           now rewrite app_nil_r.
        -- destruct (Hgood filename (or_introl eq_refl)) as (doc & Hopen & Hgen).
           unfold bind at 1, lift. rewrite Hopen. unfold bind at 1.
           specialize (Hgen w).
           destruct (generate_qas_appends model fuel [document_text doc]
                       (tokenizer model) (ntpath.join folder_path filename) w)
             as (evs1 & Htrace1 & Hdiag).
           destruct (generate_qas model fuel [document_text doc] (tokenizer model)
                       (ntpath.join folder_path filename) w) as [o w1].
           simpl in Hgen, Htrace1. subst o.
           unfold bind at 1. rewrite print_run.
           destruct (IH (texts ++ [document_text doc]) good
                       (logged [Print (DatasetSaved filename output_file)] w1))
             as (w' & evs2 & Hrun & Htrace2 & Hsaved2).
           ++ now rewrite length_app, Nat.add_1_r.
           ++ intros f Hf. apply Hgood. now right.
           ++ exists w', (evs1 ++ [Print (DatasetSaved filename output_file)] ++ evs2).
              split; [exact Hrun|]. split.
              ** rewrite Htrace2. simpl. rewrite Htrace1. now rewrite <- !app_assoc.
              ** rewrite !saved_documents_app, saved_documents_diagnostics by exact Hdiag.
                 simpl. now rewrite Hsaved2.
    + rewrite remaining_pdfs_skip in Hsel by exact Hpdf. now apply IH.
Qed.

End DriverAborts.

(** X16. A PDF file that cannot be parsed ends the whole run: when the
    documents before it went through, [main] reports each of them as
    saved and then raises what the parser raises; the files after it
    are not worked on and the end-of-run dialog does not come up. *)
Theorem unparseable_document_aborts_the_run :
  forall (model : QGModel) (host : Host) (fuel : nat) (folder_path output_file : string)
         (max_files : Z) (listing good : list string) (bad : string)
         (rest : list string) (e : exn) (w : world),
    listdir host folder_path = Returns listing ->
    selected_pdfs max_files listing = good ++ bad :: rest ->
    (forall filename, In filename good ->
       exists doc,
         fitz_open host (ntpath.join folder_path filename) = Returns doc /\
         forall v, fst (generate_qas model fuel [document_text doc] (tokenizer model)
                          (ntpath.join folder_path filename) v) = Returns tt) ->
    fitz_open host (ntpath.join folder_path bad) = Raises e ->
    exists (w' : world) (evs : list event),
      main model host fuel folder_path output_file max_files w = (Raises e, w') /\
      trace w' = trace w ++ evs /\
      saved_documents evs = map (fun filename => (filename, output_file)) good /\
      Forall is_print evs.
Proof.
  intros model host fuel folder_path output_file max_files listing good bad rest e w
    Hlist Hsel Hgood Hbad.
  rewrite selected_pdfs_remaining in Hsel.
  destruct (main_loop_raises model host fuel folder_path output_file max_files
              bad rest e Hbad listing [] good w Hsel Hgood)
    as (w' & evs & Hrun & Htrace & Hsaved).
  exists w', evs. unfold main. unfold bind at 1, lift. rewrite Hlist.
  unfold bind. rewrite Hrun. repeat split; try assumption.
  destruct (main_loop_appends model host fuel folder_path output_file max_files
              listing [] w) as (evs' & Htrace' & Hprints).
  rewrite Hrun in Htrace'. simpl in Htrace'. rewrite Htrace in Htrace'.
  apply app_inv_head in Htrace'. now subst evs'.
Qed.

Lemma unparseable_document_aborts_the_run_witness :
  exists (w' : world) (evs : list event),
    main sample_model broken_host 1 "docs" "qa_dataset.json" 0 empty_world
    = (Raises broken_document, w') /\
    trace w' = trace empty_world ++ evs /\
    saved_documents evs = map (fun filename => (filename, "qa_dataset.json")) ["a.pdf"] /\
    Forall is_print evs.
Proof.
  apply (unparseable_document_aborts_the_run sample_model broken_host 1 "docs"
           "qa_dataset.json" 0 ["a.pdf"; "notes.txt"; "b.pdf"] ["a.pdf"] "b.pdf" []).
  - reflexivity.
  - reflexivity.
  - intros filename [<-|[]]. exists ["Alpha "; "one."]. split; [reflexivity|].
    intros v.
    destruct (generate_qas_shape sample_model 1 [document_text ["Alpha "; "one."]]
                (tokenizer sample_model) (ntpath.join "docs" "a.pdf"))
      as [(content & evs & Hgen)|(o & evs & Hno & Hgen)].
    + now rewrite Hgen.
    + exfalso. specialize (Hgen empty_world). vm_compute in Hgen.
      injection Hgen as Ho _. now subst o.
  - reflexivity.
Defined.

(** X17. When [0 <= overlap < max_length], window number [k] has
    [max_length] characters, or as many as the text has left from its
    start [k * (max_length - overlap)] on: only windows that reach the
    end of the text are shorter. *)
Theorem length_of_each_window :
  forall (text : string) (max_length overlap : Z) (fuel : nat)
         (windows : list string) (k : nat) (window : string),
    0 <= overlap -> overlap < max_length ->
    preliminary_split_text text max_length overlap fuel = Some windows ->
    windows !! k = Some window ->
    PyStr.len window
    = Z.min max_length (PyStr.len text - Z.of_nat k * (max_length - overlap)).
Proof.
  intros text max_length overlap fuel windows k window Hov Hstep Hrun Hk.
  rewrite (preliminary_split_text_returns _ _ _ _ _ Hstep Hrun) in Hk.
  rewrite list_lookup_fmap in Hk.
  destruct (seq 0 (window_count text max_length overlap) !! k) as [i|] eqn:Hi;
    [|discriminate].
  apply lookup_seq in Hi as [-> Hlt]. simpl in Hk. injection Hk as <-.
  pose proof (window_starts_inside text max_length overlap k Hstep Hlt) as Hin.
  unfold nth_window.
  assert (Hstart : 0 <= Z.of_nat k * (max_length - overlap)) by nia.
  set (start := Z.of_nat k * (max_length - overlap)) in *.
  rewrite slice_window by lia.
  unfold PyStr.len in *. rewrite substring_length. lia.
Qed.

Lemma length_of_each_window_witness :
  PyStr.len "j" = Z.min 4 (PyStr.len "abcdefghij" - Z.of_nat 3 * (4 - 1)).
Proof.
  apply (length_of_each_window "abcdefghij" 4 1 4 ["abcd"; "defg"; "ghij"; "j"] 3 "j");
    first [reflexivity | discriminate].
Defined.
